(** * Instagram automation client and its tool adapter

    A shallow embedding of [instagram_tool.py] (the browser session client)
    and [kortix_integration_template.py] (the tool adapter), with the
    properties of their error handling and of their selector fallbacks.

    The browser is the environment.  Every call into it (Playwright calls,
    [asyncio.sleep], [print], the logger) is recorded, in order, in a trace
    of events; what the browser answers is read from an oracle that sees the
    whole trace so far, so a page may change between two probes.  A method of
    a Python object becomes a computation over the object's fields and the
    trace, which either returns a value or raises. *)

From Stdlib Require Import String Ascii List ZArith NArith Lia Bool DecimalString.
Import ListNotations.
Open Scope string_scope.

(** ** Exceptions, handles and events *)

(** The exceptions of class [Exception] that the code meets: the
    [ValueError]s it raises itself, the [AttributeError] of a method call on
    [None], and whatever Playwright raises. These are the errors that the
    handlers of the code, all of them [except Exception], catch. What is
    outside that class ([asyncio.CancelledError], [KeyboardInterrupt]) is no
    value of this type: a run is a run that is not cancelled or interrupted
    from outside, and a statement that nothing is raised says that nothing of
    class [Exception] is. *)
Inductive exn : Type :=
| ValueError (msg : string)
| AttributeError (msg : string)
| PlaywrightError (msg : string).

(** [str(e)] *)
Definition str (e : exn) : string :=
  match e with
  | ValueError msg => msg
  | AttributeError msg => msg
  | PlaywrightError msg => msg
  end.

Definition Playwright := nat.
Definition Browser := nat.
Definition Page := nat.
Definition Element := nat.

(** Calls into Playwright that return nothing of interest or a fresh handle. *)
Inductive action : Type :=
| StartPlaywright
| Launch (headless : bool) (args : list string)
| NewContext (width height : Z) (user_agent : string)
| NewPage
| Goto (url : string) (wait_until : option string)
| Click (el : Element)
| Fill (el : Element) (text : string)
| SetInputFiles (el : Element) (path : string)
| BrowserClose (b : Browser).

(** The answer of [page.query_selector]. *)
Inductive probe : Type :=
| Found (el : Element)
| Missing
| Broken (e : exn).

Inductive event : Type :=
| EvAct (a : action) (raised : option exn)
| EvQuery (selector : string) (answer : probe)
| EvSleep (ms : N)
| EvPrint (line : string)
| EvLogError (line : string).

Definition trace := list event.

(** The environment: the process configuration and the browser's answers. *)
Class Env : Type := {
  getenv : string -> option string;
  on_query : trace -> string -> probe;
  on_act : trace -> action -> option exn
}.

(** ** Computations *)

Inductive outcome (A : Type) : Type :=
| Ok (a : A)
| Raise (e : exn).
Arguments Ok {A} a.
Arguments Raise {A} e.

(** A computation over an object of state [S] and the trace. A raise keeps
    the assignments and the events made before it. *)
Definition M (S A : Type) : Type := S -> trace -> outcome A * S * trace.

Definition ret {S A} (a : A) : M S A := fun s h => (Ok a, s, h).

Definition raise {S A} (e : exn) : M S A := fun s h => (Raise e, s, h).

Definition bind {S A B} (m : M S A) (k : A -> M S B) : M S B :=
  fun s h =>
    match m s h with
    | (Ok a, s', h') => k a s' h'
    | (Raise e, s', h') => (Raise e, s', h')
    end.

(** [try: body except Exception as e: handler]: every value of [exn] is of
    class [Exception], so the handler takes whatever the body raises. *)
Definition try {S A} (body : M S A) (handler : exn -> M S A) : M S A :=
  fun s h =>
    match body s h with
    | (Ok a, s', h') => (Ok a, s', h')
    | (Raise e, s', h') => handler e s' h'
    end.

(** [try: body finally: cleanup]: the cleanup always runs; its own error
    replaces the outcome of the body. *)
Definition finally {S A} (body : M S A) (cleanup : M S unit) : M S A :=
  fun s h =>
    match body s h with
    | (r, s', h') =>
        match cleanup s' h' with
        | (Ok _, s'', h'') => (r, s'', h'')
        | (Raise e, s'', h'') => (Raise e, s'', h'')
        end
    end.

Definition get {S} : M S S := fun s h => (Ok s, s, h).

Definition put {S} (s : S) : M S unit := fun _ h => (Ok tt, s, h).

Definition emit {S} (ev : event) : M S unit := fun s h => (Ok tt, s, (h ++ [ev])%list).

Declare Scope m_scope.
Delimit Scope m_scope with m.
Notation "x <- c1 ;; c2" := (bind c1 (fun x => c2))
  (at level 61, c1 at next level, right associativity) : m_scope.
Notation "c1 ;; c2" := (bind c1 (fun _ => c2))
  (at level 61, right associativity) : m_scope.
Open Scope m_scope.

Definition result {A S} (r : outcome A * S * trace) : outcome A := fst (fst r).
Definition final {A S} (r : outcome A * S * trace) : S := snd (fst r).
Definition events {A S} (r : outcome A * S * trace) : trace := snd r.

(** The double quote, for the selectors and messages that contain one. *)
Definition dq : string := String (ascii_of_nat 34) EmptyString.

Definition nl : string := String (ascii_of_nat 10) EmptyString.

(** [str(n)] for an [int]. *)
Definition str_int (n : Z) : string := NilZero.string_of_int (Z.to_int n).

(** Truth value of an [Optional[str]]: [None] and the empty string are false. *)
Definition truthy (s : option string) : bool :=
  match s with
  | Some (String _ _) => true
  | _ => false
  end.

(** [a or b] on [Optional[str]]; [b] is only looked at when [a] is false. *)
Definition py_or (a b : option string) : option string :=
  if truthy a then a else b.

Definition text (s : option string) : string :=
  match s with
  | Some t => t
  | None => ""
  end.

Definition is_some {A} (o : option A) : bool :=
  match o with
  | Some _ => true
  | None => false
  end.

(** The error of a method call on [None]. *)
Definition none_has_no (attr : string) : exn :=
  AttributeError ("'NoneType' object has no attribute '" ++ attr ++ "'").

(** ** Primitives *)

Section Primitives.

Context {env : Env}.

Definition act {S} (a : action) : M S unit :=
  fun s h =>
    match on_act h a with
    | None => (Ok tt, s, (h ++ [EvAct a None])%list)
    | Some e => (Raise e, s, (h ++ [EvAct a (Some e)])%list)
    end.

(** An action that hands back a new object; the object is named by the
    position of its creation in the trace. *)
Definition create {S} (a : action) : M S nat :=
  fun s h =>
    match on_act h a with
    | None => (Ok (length h), s, (h ++ [EvAct a None])%list)
    | Some e => (Raise e, s, (h ++ [EvAct a (Some e)])%list)
    end.

Definition sleep {S} (ms : N) : M S unit := emit (EvSleep ms).

Definition print {S} (line : string) : M S unit := emit (EvPrint line).

End Primitives.

(** ** The client: [instagram_tool.InstagramAutomationTool] *)

Module Client.

Record t : Type := {
  browser : option Browser;
  page : option Page;
  playwright : option Playwright
}.

(** [__init__] *)
Definition new : t :=
  {| browser := None; page := None; playwright := None |}.

Section Methods.

Context {env : Env}.

Definition set_browser (b : option Browser) : M t unit :=
  fun c h => (Ok tt, {| browser := b; page := page c; playwright := playwright c |}, h).

Definition set_page (p : option Page) : M t unit :=
  fun c h => (Ok tt, {| browser := browser c; page := p; playwright := playwright c |}, h).

Definition set_playwright (p : option Playwright) : M t unit :=
  fun c h => (Ok tt, {| browser := browser c; page := page c; playwright := p |}, h).

(** [self.page.goto(url, wait_until=...)] *)
Definition page_goto (url : string) (wait_until : option string) : M t unit :=
  c <- get ;;
  match page c with
  | Some _ => act (Goto url wait_until)
  | None => raise (none_has_no "goto")
  end.

(** [self.page.query_selector(selector)] *)
Definition query_selector (selector : string) : M t (option Element) :=
  fun c h =>
    match page c with
    | None => (Raise (none_has_no "query_selector"), c, h)
    | Some _ =>
        match on_query h selector with
        | Found el => (Ok (Some el), c, (h ++ [EvQuery selector (Found el)])%list)
        | Missing => (Ok None, c, (h ++ [EvQuery selector Missing])%list)
        | Broken e => (Raise e, c, (h ++ [EvQuery selector (Broken e)])%list)
        end
    end.

Definition click (el : Element) : M t unit := act (Click el).

Definition fill (el : Element) (s : string) : M t unit := act (Fill el s).

Definition set_input_files (el : Element) (path : string) : M t unit :=
  act (SetInputFiles el path).

Definition launch_args : list string :=
  [ "--no-sandbox"; "--disable-setuid-sandbox"; "--disable-dev-shm-usage";
    "--disable-accelerated-2d-canvas"; "--no-first-run"; "--no-zygote";
    "--disable-gpu" ].

Definition user_agent : string :=
  "Mozilla/5.0 (Windows NT 10.0; Win64; x64) AppleWebKit/537.36 (KHTML, like Gecko) Chrome/96.0.4664.110 Safari/537.36".

Definition init : M t unit :=
  pw <- create StartPlaywright ;;
  set_playwright (Some pw) ;;
  b <- create (Launch false launch_args) ;;
  set_browser (Some b) ;;
  _ <- create (NewContext 1920 1080 user_agent) ;;
  p <- create NewPage ;;
  set_page (Some p).

Definition save_info_selector : string :=
  "button:has-text(" ++ dq ++ "Save Info" ++ dq ++ ")".

Definition not_now_selectors : list string :=
  [ "button:has-text(" ++ dq ++ "Not Now" ++ dq ++ ")";
    "div:has-text(" ++ dq ++ "Not Now" ++ dq ++ ")";
    "//button[contains(text(), " ++ dq ++ "Not Now" ++ dq ++ ")]";
    "//div[contains(text(), " ++ dq ++ "Not Now" ++ dq ++ ")]" ].

Definition not_now_selector : string :=
  "button:has-text(" ++ dq ++ "Not Now" ++ dq ++ ")".

Definition _handle_security_checks : M t unit :=
  c <- get ;;
  if negb (is_some (page c)) then ret tt
  else
    try
      (save_info_button <- query_selector save_info_selector ;;
       match save_info_button with
       | Some el => click el ;; sleep 2000
       | None => ret tt
       end ;;
       not_now_button <- query_selector not_now_selector ;;
       match not_now_button with
       | Some el => click el ;; sleep 2000
       | None => ret tt
       end)
      (fun e => print ("Security check handling failed: " ++ str e)).

(** The [for selector in not_now_selectors] loop of
    [_handle_notification_popup], with the statement after it as its end. *)
Fixpoint not_now_loop (selectors : list string) : M t unit :=
  match selectors with
  | [] => print "'Not Now' button not found in notification dialog"
  | selector :: rest =>
      not_now_button <- query_selector selector ;;
      match not_now_button with
      | Some el => click el ;; sleep 1500 ;; print "Notification popup dismissed"
      | None => not_now_loop rest
      end
  end.

Definition _handle_notification_popup : M t unit :=
  c <- get ;;
  if negb (is_some (page c)) then ret tt
  else
    try (not_now_loop not_now_selectors)
        (fun e => print ("No notification popup appeared: " ++ str e)).

Definition login_url : string := "https://www.instagram.com/accounts/login/".
Definition username_selector : string := "input[name=" ++ dq ++ "username" ++ dq ++ "]".
Definition password_selector : string := "input[name=" ++ dq ++ "password" ++ dq ++ "]".
Definition submit_selector : string := "button[type=" ++ dq ++ "submit" ++ dq ++ "]".

Definition login (username password : option string) : M t bool :=
  c <- get ;;
  if negb (is_some (page c)) then raise (ValueError "Page not initialized")
  else
    let username := py_or username (getenv "IG_USERNAME") in
    let password := py_or password (getenv "IG_PASSWORD") in
    if negb (truthy username) || negb (truthy password)
    then raise (ValueError "Instagram credentials not provided")
    else
      try
        (page_goto login_url (Some "networkidle") ;;
         sleep 3000 ;;
         username_input <- query_selector username_selector ;;
         password_input <- query_selector password_selector ;;
         match username_input, password_input with
         | Some u, Some p =>
             fill u (text username) ;;
             fill p (text password) ;;
             sleep 1000 ;;
             login_button <- query_selector submit_selector ;;
             match login_button with
             | Some b =>
                 click b ;;
                 sleep 5000 ;;
                 _handle_security_checks ;;
                 print "Login successful" ;;
                 ret true
             | None =>
                 print "Login form elements not found" ;;
                 ret false
             end
         | _, _ =>
             print "Login form elements not found" ;;
             ret false
         end)
        (fun e => print ("Login failed: " ++ str e) ;; ret false).

Definition message_button_selector : string :=
  "button:has-text(" ++ dq ++ "Message" ++ dq ++ "), div:has-text(" ++ dq ++ "Message" ++ dq ++ ")".

Definition file_input_selector : string := "input[type=" ++ dq ++ "file" ++ dq ++ "]".

Definition message_input_selectors : list string :=
  [ "textarea[placeholder*=" ++ dq ++ "Message" ++ dq ++ "]";
    "div[role=" ++ dq ++ "textbox" ++ dq ++ "]";
    "div[contenteditable=" ++ dq ++ "true" ++ dq ++ "]" ].

Definition send_button_selector : string :=
  "button:has-text(" ++ dq ++ "Send" ++ dq ++ "), div:has-text(" ++ dq ++ "Send" ++ dq ++ ")".

(** The [for selector in message_input_selectors] loop with its [break]:
    the value of [message_input] when the loop is left. *)
Fixpoint first_match (selectors : list string) : M t (option Element) :=
  match selectors with
  | [] => ret None
  | selector :: rest =>
      message_input <- query_selector selector ;;
      match message_input with
      | Some el => ret (Some el)
      | None => first_match rest
      end
  end.

Definition send_direct_message (username message : string) (media_path : option string)
  : M t unit :=
  c <- get ;;
  if negb (is_some (page c)) then raise (ValueError "Page not initialized")
  else
    try
      (page_goto ("https://www.instagram.com/" ++ username ++ "/") (Some "networkidle") ;;
       sleep 3000 ;;
       message_button <- query_selector message_button_selector ;;
       match message_button with
       | None => raise (ValueError "Message button not found")
       | Some mb =>
           click mb ;;
           sleep 2000 ;;
           _handle_notification_popup ;;
           (if truthy media_path
            then
              file_input <- query_selector file_input_selector ;;
              match file_input with
              | Some fi => set_input_files fi (text media_path) ;; sleep 2000
              | None => print "File input not found for media attachment"
              end
            else ret tt) ;;
           message_input <- first_match message_input_selectors ;;
           match message_input with
           | None => raise (ValueError "Message input not found")
           | Some mi =>
               fill mi message ;;
               sleep 2000 ;;
               send_button <- query_selector send_button_selector ;;
               match send_button with
               | Some sb => click sb ;; print "Message sent successfully"
               | None => raise (ValueError "Send button not found")
               end
           end
       end)
      (fun e => print ("Failed to send DM to " ++ username ++ ": " ++ str e) ;; raise e).

Definition interact_with_posts (max_posts : Z) : M t unit :=
  c <- get ;;
  if negb (is_some (page c)) then raise (ValueError "Page not initialized")
  else print ("Post interaction for " ++ str_int max_posts ++ " posts not yet implemented").

Definition scrape_followers (target_account : string) (max_followers : Z)
  : M t (list string) :=
  c <- get ;;
  if negb (is_some (page c)) then raise (ValueError "Page not initialized")
  else
    print ("Follower scraping for " ++ target_account ++ " not yet implemented") ;;
    ret [].

Definition close : M t unit :=
  c <- get ;;
  match browser c with
  | Some b =>
      act (BrowserClose b) ;;
      set_browser None ;;
      set_page None
  | None => ret tt
  end.

(** The prompt that [generate_comment] builds and does not use yet. *)
Definition comment_prompt (post_caption : string) : string :=
  "Generate a human-like Instagram comment based on this post: " ++ dq ++ post_caption ++ dq ++ "." ++ nl ++
  "        " ++ nl ++
  "        Requirements:" ++ nl ++
  "        - Match the tone of the caption (casual, funny, serious, or sarcastic)" ++ nl ++
  "        - Sound organic‚Äîavoid robotic phrasing or overly perfect grammar" ++ nl ++
  "        - Use relatable language with light slang and emojis if appropriate" ++ nl ++
  "        - Keep it concise (1-2 sentences max)" ++ nl ++
  "        - Avoid generic praise; react specifically to the content" ++ nl ++
  "        ".

Definition placeholder_comment : string := "Great post! üòäüëè".

Definition generate_comment (post_caption : string) : M t string :=
  let prompt := comment_prompt post_caption in
  ret placeholder_comment.

End Methods.

End Client.

(** [main] of [instagram_tool.py], on the tool it constructs. *)
Definition main {env : Env} : M Client.t unit :=
  finally
    (try
       (Client.init ;;
        print "Browser initialized successfully. Press Ctrl+C to exit." ;;
        sleep 3600000)
       (fun e => print ("Error: " ++ str e)))
    Client.close.

(** ** The adapter: [kortix_integration_template.InstagramAutomationTool] *)

(** Values of the dictionaries handed to [success_response]. *)
Inductive jvalue : Type :=
| JStr (s : string)
| JInt (n : Z)
| JBool (b : bool)
| JNull
| JStrs (l : list string).

Definition payload := list (string * jvalue).

Fixpoint field (key : string) (d : payload) : option jvalue :=
  match d with
  | [] => None
  | (k, v) :: rest => if String.eqb k key then Some v else field key rest
  end.

Inductive tool_output : Type :=
| Data (d : payload)
| Message (msg : string).

(** Modelled from the spec: the result envelope of the external runtime
    ([agentpress.tool.ToolResult]), which the repository imports and does not
    define: a success flag with either the structured payload or the error
    text. *)
Record ToolResult : Type := {
  success : bool;
  output : tool_output
}.

(** Modelled from the spec: [success_response] of the base class
    [SandboxToolsBase], which is not part of the repository: the success
    envelope around a payload. *)
Definition success_response (d : payload) : ToolResult :=
  {| success := true; output := Data d |}.

(** Modelled from the spec: [fail_response] of the base class
    [SandboxToolsBase], which is not part of the repository: the failure
    envelope carrying the error text. *)
Definition fail_response (msg : string) : ToolResult :=
  {| success := false; output := Message msg |}.

(** Modelled from the spec: [logger.error] of [utils.logger], which is not
    part of the repository: one log line, recorded in the trace. *)
Definition logger_error {S} (line : string) : M S unit := emit (EvLogError line).

(** A Python [str] is a sequence of characters (code points); a [string]
    here holds its UTF-8 encoding, in which a character is one byte that is
    not of the form 10xxxxxx followed by the bytes of that form that continue
    it. *)
Definition continuation (c : ascii) : bool :=
  match c with
  | Ascii _ _ _ _ _ _ false true => true
  | _ => false
  end.

(** [len(s)] of a [str]: the number of its characters. *)
Fixpoint str_len (s : string) : nat :=
  match s with
  | EmptyString => 0
  | String c s' => if continuation c then str_len s' else S (str_len s')
  end.

(** [s[:n]] of a [str]: its first [n] characters, all of it when it has
    fewer. *)
Fixpoint prefix (n : nat) (s : string) : string :=
  match s with
  | EmptyString => EmptyString
  | String c s' =>
      if continuation c then String c (prefix n s')
      else match n with
           | 0 => EmptyString
           | S n' => String c (prefix n' s')
           end
  end.

(** A parameter with a default value: [None] is a call that leaves it out. *)
Definition default {A} (d : A) (arg : option A) : A :=
  match arg with
  | Some a => a
  | None => d
  end.

Module Adapter.

Record t : Type := {
  thread_id : string;
  instagram_client : option Client.t
}.

(** [__init__], without the fields of the base class. *)
Definition new (thread_id : string) : t :=
  {| thread_id := thread_id; instagram_client := None |}.

Definition set_instagram_client (c : option Client.t) : M t unit :=
  fun a h => (Ok tt, {| thread_id := thread_id a; instagram_client := c |}, h).

(** [self.instagram_client.attr(...)]: the method runs on the client the
    adapter holds, and fails with an [AttributeError] when it holds none. *)
Definition on_client {A} (attr : string) (m : M Client.t A) : M t A :=
  fun a h =>
    match instagram_client a with
    | None => (Raise (none_has_no attr), a, h)
    | Some c =>
        match m c h with
        | (r, c', h') =>
            (r, {| thread_id := thread_id a; instagram_client := Some c' |}, h')
        end
    end.

Section Methods.

Context {env : Env}.

Definition _ensure_instagram_client : M t unit :=
  a <- get ;;
  if negb (is_some (instagram_client a))
  then
    set_instagram_client (Some Client.new) ;;
    on_client "init" Client.init
  else ret tt.

(** The [try] block of [instagram_send_direct_message]. *)
Definition send_direct_message_block (username message : string) (media_path : option string)
  : M t ToolResult :=
  _ensure_instagram_client ;;
  on_client "send_direct_message" (Client.send_direct_message username message media_path) ;;
  ret (success_response
         [ ("message", JStr ("Message sent successfully to " ++ username));
           ("username", JStr username);
           ("message_content", JStr message);
           ("media_attached", JBool (is_some media_path)) ]).

Definition instagram_send_direct_message (username message : string) (media_path : option string)
  : M t ToolResult :=
  try (send_direct_message_block username message media_path)
      (fun e =>
         logger_error ("Failed to send Instagram DM: " ++ str e) ;;
         ret (fail_response ("Failed to send message: " ++ str e))).

Definition jstr_or_null (s : option string) : jvalue :=
  match s with
  | Some t => JStr t
  | None => JNull
  end.

(** The [try] block of [instagram_interact_with_posts]. *)
Definition interact_with_posts_block (max_posts : Z) (target_account : option string)
  : M t ToolResult :=
  _ensure_instagram_client ;;
  (if truthy target_account
   then
     on_client "page"
       (Client.page_goto ("https://www.instagram.com/" ++ text target_account ++ "/") None) ;;
     sleep 3000
   else ret tt) ;;
  on_client "interact_with_posts" (Client.interact_with_posts max_posts) ;;
  ret (success_response
         [ ("message", JStr ("Interacted with " ++ str_int max_posts ++ " posts successfully"));
           ("target_account", jstr_or_null target_account);
           ("posts_processed", JInt max_posts) ]).

Definition instagram_interact_with_posts (max_posts : option Z) (target_account : option string)
  : M t ToolResult :=
  let max_posts := default 20%Z max_posts in
  try (interact_with_posts_block max_posts target_account)
      (fun e =>
         logger_error ("Failed to interact with posts: " ++ str e) ;;
         ret (fail_response ("Failed to interact with posts: " ++ str e))).

Definition len (l : list string) : Z := Z.of_nat (length l).

(** The [try] block of [instagram_scrape_followers]. *)
Definition scrape_followers_block (target_account : string) (max_followers : Z)
  : M t ToolResult :=
  _ensure_instagram_client ;;
  followers <- on_client "scrape_followers" (Client.scrape_followers target_account max_followers) ;;
  ret (success_response
         [ ("message", JStr ("Successfully scraped " ++ str_int (len followers)
                             ++ " followers from " ++ target_account));
           ("target_account", JStr target_account);
           ("followers_count", JInt (len followers));
           ("followers", JStrs (firstn 10 followers));
           ("total_available", JStr (str_int (len followers) ++ "/" ++ str_int max_followers)) ]).

Definition instagram_scrape_followers (target_account : string) (max_followers : option Z)
  : M t ToolResult :=
  let max_followers := default 100%Z max_followers in
  try (scrape_followers_block target_account max_followers)
      (fun e =>
         logger_error ("Failed to scrape followers: " ++ str e) ;;
         ret (fail_response ("Failed to scrape followers: " ++ str e))).

Definition comment_prompt (post_caption tone : string) : string :=
  "Generate a human-like Instagram comment based on this post: " ++ dq ++ post_caption ++ dq ++ "." ++ nl ++
  "            " ++ nl ++
  "            Tone: " ++ tone ++ nl ++
  "            Requirements:" ++ nl ++
  "            - Sound organic and authentic" ++ nl ++
  "            - Use appropriate emojis and casual language" ++ nl ++
  "            - 1-2 sentences maximum" ++ nl ++
  "            - React specifically to the post content" ++ nl ++
  "            ".

Definition placeholder_comment : string := "This looks amazing! Can't wait to try it out 🚀👏".

(** The [try] block of [instagram_generate_comment]. *)
Definition generate_comment_block (post_caption tone : string) : M t ToolResult :=
  let prompt := comment_prompt post_caption tone in
  let comment := placeholder_comment in
  ret (success_response
         [ ("message", JStr "Comment generated successfully");
           ("generated_comment", JStr comment);
           ("post_caption_preview",
             JStr (if (100 <? str_len post_caption)%nat
                   then prefix 100 post_caption ++ "..."
                   else post_caption));
           ("tone", JStr tone) ]).

Definition instagram_generate_comment (post_caption : string) (tone : option string)
  : M t ToolResult :=
  let tone := default "casual" tone in
  try (generate_comment_block post_caption tone)
      (fun e =>
         logger_error ("Failed to generate comment: " ++ str e) ;;
         ret (fail_response ("Failed to generate comment: " ++ str e))).

Definition close : M t unit :=
  a <- get ;;
  if is_some (instagram_client a)
  then
    on_client "close" Client.close ;;
    set_instagram_client None
  else ret tt.

End Methods.

End Adapter.

(** ** Sample environments *)

(** A browser whose answers do not depend on what happened before. *)
Definition static_env (cfg : string -> option string) (dom : string -> probe)
    (fails : action -> option exn) : Env :=
  {| getenv := cfg; on_query := fun _ s => dom s; on_act := fun _ a => fails a |}.

Definition no_config : string -> option string := fun _ => None.

Definition sample_config : string -> option string :=
  fun k => if String.eqb k "IG_USERNAME" then Some "acme"
           else if String.eqb k "IG_PASSWORD" then Some "s3cret"
           else None.

Definition never_fails : action -> option exn := fun _ => None.

(** A page on which no selector matches anything. *)
Definition blank_page : Env := static_env sample_config (fun _ => Missing) never_fails.

(** A page that only shows the target of the third "Not Now" strategy. *)
Definition third_only : Env :=
  static_env sample_config
    (fun s => if String.eqb s (nth 2 Client.not_now_selectors "") then Found 7 else Missing)
    never_fails.

(** A page on which both the "Save Info" and the "Not Now" button show. *)
Definition both_prompts : Env :=
  static_env sample_config
    (fun s => if String.eqb s Client.save_info_selector then Found 1
              else if String.eqb s Client.not_now_selector then Found 2
              else Missing)
    never_fails.


(** A browser that cannot be closed. *)
Definition stuck_browser : Env :=
  static_env no_config (fun _ => Missing)
    (fun a => match a with
              | BrowserClose _ => Some (PlaywrightError "Target closed")
              | _ => None
              end).

(** A machine on which the browser does not start. *)
Definition no_browser : Env :=
  static_env sample_config (fun _ => Missing)
    (fun a => match a with
              | Launch _ _ => Some (PlaywrightError "Executable not found")
              | _ => None
              end).

(** A client after a successful [init]. *)
Definition ready_client : Client.t :=
  {| Client.browser := Some 1; Client.page := Some 3; Client.playwright := Some 0 |}.

(** An adapter that holds an initialized client. *)
Definition busy_adapter : Adapter.t :=
  {| Adapter.thread_id := "thread-1"; Adapter.instagram_client := Some ready_client |}.

(** A caption of 120 characters. *)
Definition long_caption : string :=
  "0123456789012345678901234567890123456789012345678901234567890123456789012345678901234567890123456789ABCDEFGHIJKLMNOPQRST".

(** The boundary of a tool method: its [try] block [block] and the method
    [action] around it. No error of class [Exception] leaves the method; its
    envelope is the block's when the block returns, and when the block raises
    such an error it is the failure envelope with the error text after
    [prefix], logged before. *)
Definition enveloped (action block : M Adapter.t ToolResult)
    (log_prefix prefix : string) (a : Adapter.t) (h : trace) : Prop :=
  (forall e, result (action a h) <> Raise e) /\
  (forall res, result (block a h) = Ok res -> action a h = block a h) /\
  (forall e, result (block a h) = Raise e ->
     action a h
     = (Ok (fail_response (prefix ++ str e)), final (block a h),
        (events (block a h) ++ [EvLogError (log_prefix ++ str e)])%list)).

(** The selectors a stretch of the trace probed, in the order of the probes. *)
Fixpoint probed (T : trace) : list string :=
  match T with
  | [] => []
  | EvQuery selector _ :: rest => selector :: probed rest
  | _ :: rest => probed rest
  end.

(** The events of probing each of the selectors in turn and finding nothing. *)
Definition misses (selectors : list string) : trace :=
  map (fun selector => EvQuery selector Missing) selectors.

(** A client never holds a page without holding the browser it belongs to. *)
Definition wf (c : Client.t) : Prop :=
  Client.page c <> None -> Client.browser c <> None.

(** The actions a stretch of the trace called, in order, whatever came of
    them. *)
Fixpoint acted (T : trace) : list action :=
  match T with
  | [] => []
  | EvAct a _ :: rest => a :: acted rest
  | _ :: rest => acted rest
  end.

(** A call of a method of the client by its user. *)
Inductive call : Type :=
| CallInit
| CallLogin (username password : option string)
| CallSendDirectMessage (username message : string) (media_path : option string)
| CallInteractWithPosts (max_posts : Z)
| CallScrapeFollowers (target_account : string) (max_followers : Z)
| CallGenerateComment (post_caption : string)
| CallClose.

(** The client and the trace after a call, whether it returned or raised. *)
Definition after {env : Env} (k : call) (c : Client.t) (h : trace) : Client.t * trace :=
  match k with
  | CallInit =>
      (final (Client.init c h), events (Client.init c h))
  | CallLogin username password =>
      (final (Client.login username password c h),
       events (Client.login username password c h))
  | CallSendDirectMessage username message media_path =>
      (final (Client.send_direct_message username message media_path c h),
       events (Client.send_direct_message username message media_path c h))
  | CallInteractWithPosts max_posts =>
      (final (Client.interact_with_posts max_posts c h),
       events (Client.interact_with_posts max_posts c h))
  | CallScrapeFollowers target_account max_followers =>
      (final (Client.scrape_followers target_account max_followers c h),
       events (Client.scrape_followers target_account max_followers c h))
  | CallGenerateComment post_caption =>
      (final (Client.generate_comment post_caption c h),
       events (Client.generate_comment post_caption c h))
  | CallClose =>
      (final (Client.close c h), events (Client.close c h))
  end.

(** A user that makes the calls one after the other and catches what they
    raise. *)
Fixpoint after_all {env : Env} (ks : list call) (c : Client.t) (h : trace)
  : Client.t * trace :=
  match ks with
  | [] => (c, h)
  | k :: rest => after_all rest (fst (after k c h)) (snd (after k c h))
  end.

(** A caption of 100 characters. *)
Definition full_caption : string := prefix 100 long_caption.

(** A caption of [n] rockets, each a character of four bytes. *)
Fixpoint rockets (n : nat) : string :=
  match n with
  | 0 => ""
  | S n' => "🚀" ++ rockets n'
  end.

(** A machine on which a browser context cannot be created. *)
Definition no_context : Env :=
  static_env sample_config (fun _ => Missing)
    (fun a => match a with
              | NewContext _ _ _ => Some (PlaywrightError "Target closed")
              | _ => None
              end).

(** A login page and a profile page on which every control is there. *)
Definition full_page : Env :=
  static_env sample_config
    (fun s => if String.eqb s Client.username_selector then Found 10
              else if String.eqb s Client.password_selector then Found 11
              else if String.eqb s Client.submit_selector then Found 12
              else if String.eqb s Client.message_button_selector then Found 20
              else if String.eqb s (nth 1 Client.message_input_selectors "") then Found 21
              else if String.eqb s Client.send_button_selector then Found 22
              else Missing)
    never_fails.


(** ** Properties of the client *)

Ltac run := cbv [bind try ret raise get put emit sleep print act create
                 Client.set_browser Client.set_page Client.set_playwright
                 Client.click Client.fill Client.set_input_files Client.page_goto
                 Client.query_selector Client.first_match Client.message_input_selectors
                 is_some negb].

Lemma is_some_none {A} (o : option A) : o <> None -> is_some o = true.
Proof. destruct o; [reflexivity | congruence]. Qed.

(** [close] leaves a client that holds no browser untouched. *)
Lemma close_without_browser {env : Env} (c : Client.t) (h : trace) :
  Client.browser c = None -> Client.close c h = (Ok tt, c, h).
Proof.
  intros Hb. unfold Client.close. run. rewrite Hb. reflexivity.
Qed.

Lemma wf_new : wf Client.new.
Proof. intros H. elim H. reflexivity. Qed.

Lemma wf_init {env : Env} (c : Client.t) (h : trace) :
  wf c -> wf (final (Client.init c h)).
Proof.
  intros Hwf. unfold Client.init. run.
  destruct (on_act h StartPlaywright); [exact Hwf|].
  destruct (on_act _ (Launch _ _)); [exact Hwf|].
  destruct (on_act _ (NewContext _ _ _)); [cbn; intros _; discriminate|].
  destruct (on_act _ NewPage); cbn; intros _; discriminate.
Qed.

Lemma wf_close {env : Env} (c : Client.t) (h : trace) :
  wf c -> wf (final (Client.close c h)).
Proof.
  intros Hwf. unfold Client.close. run.
  destruct (Client.browser c) eqn:Hb; [|exact Hwf].
  destruct (on_act h (BrowserClose b)); cbn.
  - unfold wf. cbn. rewrite Hb. intros _; discriminate.
  - intros H. elim H. reflexivity.
Qed.

(** C1 (as written, refuted): on a client that was never initialized,
    [generate_comment] does not fail with a precondition error; it returns its
    placeholder. *)
Lemma C1_generate_comment_needs_no_session :
  Client.page Client.new = None /\
  result (Client.generate_comment "Just launched our new product!" Client.new [])
  = Ok Client.placeholder_comment.
Proof. split; reflexivity. Qed.

(** C1 (amended): when the page reference is absent, [login],
    [send_direct_message], [interact_with_posts] and [scrape_followers] raise
    the precondition error "Page not initialized" and leave the client and the
    trace as they were, so nothing was navigated, probed or printed;
    [generate_comment] has no such precondition: it returns its fixed
    placeholder, and it too leaves the trace as it was. *)
Theorem C1_actions_without_session {env : Env} (c : Client.t) (h : trace) :
  Client.page c = None ->
  (forall username password,
      Client.login username password c h
      = (Raise (ValueError "Page not initialized"), c, h)) /\
  (forall username message media_path,
      Client.send_direct_message username message media_path c h
      = (Raise (ValueError "Page not initialized"), c, h)) /\
  (forall max_posts,
      Client.interact_with_posts max_posts c h
      = (Raise (ValueError "Page not initialized"), c, h)) /\
  (forall target_account max_followers,
      Client.scrape_followers target_account max_followers c h
      = (Raise (ValueError "Page not initialized"), c, h)) /\
  (forall post_caption,
      Client.generate_comment post_caption c h = (Ok Client.placeholder_comment, c, h)).
Proof.
  intros Hp. repeat split; intros.
  - unfold Client.login. run. rewrite Hp. reflexivity.
  - unfold Client.send_direct_message. run. rewrite Hp. reflexivity.
  - unfold Client.interact_with_posts. run. rewrite Hp. reflexivity.
  - unfold Client.scrape_followers. run. rewrite Hp. reflexivity.
Qed.

Lemma C1_actions_without_session_witness :
  Client.page Client.new = None /\
  @Client.login blank_page (Some "acme") (Some "s3cret") Client.new []
  = (Raise (ValueError "Page not initialized"), Client.new, []).
Proof.
  split; [reflexivity|].
  apply (@C1_actions_without_session blank_page Client.new []). reflexivity.
Defined.

(** C6: on an initialized session, when the username or the password comes
    neither from the call nor from the configuration (in particular when both
    are missing from both), [login] raises the precondition error "Instagram
    credentials not provided"; the error reaches the caller as a raise, not as
    [False], and the trace is as it was: nothing was navigated. *)
Theorem C6_login_without_credentials {env : Env} (c : Client.t) (h : trace)
    (username password : option string) :
  Client.page c <> None ->
  (truthy username = false /\ truthy (getenv "IG_USERNAME") = false) \/
  (truthy password = false /\ truthy (getenv "IG_PASSWORD") = false) ->
  Client.login username password c h
  = (Raise (ValueError "Instagram credentials not provided"), c, h).
Proof.
  intros Hp Hmiss. unfold Client.login. run.
  destruct (Client.page c); [clear Hp | congruence].
  unfold py_or.
  destruct Hmiss as [[Ha Hc] | [Ha Hc]]; rewrite Ha, Hc.
  - reflexivity.
  - rewrite orb_true_r. reflexivity.
Qed.

Lemma C6_login_without_credentials_witness :
  @Client.login (static_env no_config (fun _ => Missing) never_fails) None None ready_client []
  = (Raise (ValueError "Instagram credentials not provided"), ready_client, []).
Proof.
  apply (@C6_login_without_credentials
           (static_env no_config (fun _ => Missing) never_fails) ready_client [] None None).
  - discriminate.
  - left. split; reflexivity.
Defined.

(** C7: [close] releases the browser when the client holds one and, when the
    release returns, forgets the browser and the page; on a client that holds
    no browser it does nothing. Hence a [close] that follows a [close] adds
    nothing: it returns, changes no field and calls nothing, so the two in
    sequence behave as the first alone. *)
Theorem C7_close_twice {env : Env} (c : Client.t) (h : trace) :
  (forall b, Client.browser c = Some b -> on_act h (BrowserClose b) = None ->
     Client.close c h
     = (Ok tt,
        {| Client.browser := None; Client.page := None;
           Client.playwright := Client.playwright c |},
        (h ++ [EvAct (BrowserClose b) None])%list)) /\
  (forall c' h', wf c -> Client.close c h = (Ok tt, c', h') ->
     Client.browser c' = None /\ Client.page c' = None /\
     Client.close c' h' = (Ok tt, c', h')) /\
  (Client.close ;; Client.close) c h = Client.close c h.
Proof.
  split; [|split].
  - intros b Hb Hok. unfold Client.close. run. rewrite Hb, Hok. reflexivity.
  - intros c' h' Hwf Hrun.
    assert (Hc' : Client.browser c' = None /\ Client.page c' = None).
    { revert Hrun. unfold Client.close. run.
      destruct (Client.browser c) eqn:Hb.
      - destruct (on_act h (BrowserClose b)); [discriminate|].
        intros E. injection E as <- <-. split; reflexivity.
      - intros E. injection E as <- <-. split; [exact Hb|].
        destruct (Client.page c) eqn:Hp; [|reflexivity].
        elim Hwf; [rewrite Hp; discriminate | exact Hb]. }
    destruct Hc' as [Hb' Hp']. repeat split; try assumption.
    apply close_without_browser. exact Hb'.
  - unfold bind at 1.
    destruct (Client.close c h) as [[[[]|e] c1] h1] eqn:Hrun; [|reflexivity].
    apply close_without_browser.
    revert Hrun. unfold Client.close. run.
    destruct (Client.browser c) eqn:Hb.
    + destruct (on_act h (BrowserClose b)); [discriminate|].
      intros E. injection E as <- <-. reflexivity.
    + intros E. injection E as <- <-. exact Hb.
Qed.

Lemma C7_close_twice_witness :
  @Client.close blank_page ready_client []
  = (Ok tt, {| Client.browser := None; Client.page := None; Client.playwright := Some 0 |},
     [EvAct (BrowserClose 1) None]) /\
  @Client.close blank_page
     {| Client.browser := None; Client.page := None; Client.playwright := Some 0 |}
     [EvAct (BrowserClose 1) None]
  = (Ok tt, {| Client.browser := None; Client.page := None; Client.playwright := Some 0 |},
     [EvAct (BrowserClose 1) None]).
Proof.
  destruct (@C7_close_twice blank_page ready_client []) as (Hrel & Hagain & _).
  split.
  - apply (Hrel 1); reflexivity.
  - apply (Hagain _ _).
    + intros _. discriminate.
    + apply (Hrel 1); reflexivity.
Defined.

(** *** Traces *)

Ltac norm := repeat rewrite <- app_assoc; cbn [app].

Lemma last_skip (l : trace) (ev : event) (l' : trace) (d : event) :
  last (l ++ ev :: l') d = last (ev :: l') d.
Proof.
  induction l as [|y l IH]; [reflexivity|].
  cbn [app]. rewrite <- IH.
  destruct l; reflexivity.
Qed.

(** One step of a run: unfold up to the next question to the browser, and
    split on its answer. *)
Ltac ask Hp :=
  run; rewrite ?Hp; run;
  match goal with
  | |- context [match on_query ?hh ?s with _ => _ end] =>
      destruct (on_query hh s) as [?el| |?e]
  | |- context [match on_act ?hh ?a with _ => _ end] =>
      destruct (on_act hh a) as [?e|]
  end.

Ltac settle Hp := run; rewrite ?Hp; run; norm.

Lemma probed_app (T1 T2 : trace) : probed (T1 ++ T2)%list = (probed T1 ++ probed T2)%list.
Proof.
  induction T1 as [|ev T1 IH]; [reflexivity|].
  destruct ev; cbn; rewrite IH; reflexivity.
Qed.

Lemma probed_misses (selectors : list string) : probed (misses selectors) = selectors.
Proof.
  induction selectors as [|s l IH]; [reflexivity|].
  cbn [misses map probed]. f_equal. exact IH.
Qed.



(** *** The ordered fallback of [_handle_notification_popup] *)

Section NotNowLoop.

Context {env : Env}.
Variable c : Client.t.
Hypothesis has_page : Client.page c <> None.

(** Whatever the page answers, the loop probes a prefix of its selectors, in
    their order, and changes no field of the client. *)
Lemma not_now_loop_prefix (selectors : list string) (h : trace) :
  exists r T k,
    Client.not_now_loop selectors c h = (r, c, (h ++ T)%list) /\
    probed T = firstn k selectors.
Proof.
  revert h. induction selectors as [|s rest IH]; intros h.
  - exists (Ok tt), [EvPrint "'Not Now' button not found in notification dialog"], 0.
    split; reflexivity.
  - cbn [Client.not_now_loop]. run.
    destruct (Client.page c); [|congruence].
    destruct (on_query h s) as [el| |e].
    + destruct (on_act _ (Click el)) as [e|]; do 2 eexists; exists 1; norm;
        (split; [reflexivity|reflexivity]).
    + destruct (IH (h ++ [EvQuery s Missing])%list) as (r & T & k & E & HT).
      exists r, (EvQuery s Missing :: T), (S k). rewrite E. norm.
      split; [reflexivity|]. cbn. rewrite HT. reflexivity.
    + do 2 eexists; exists 1. split; reflexivity.
Qed.

(** When the selectors before the [k]-th find nothing and the [k]-th finds an
    element, the loop clicks that element and ends. *)
Lemma not_now_loop_match (selectors : list string) (h : trace) (k : nat)
    (selector : string) (el : Element) :
  nth_error selectors k = Some selector ->
  (forall j s, j < k -> nth_error selectors j = Some s ->
     on_query (h ++ misses (firstn j selectors))%list s = Missing) ->
  on_query (h ++ misses (firstn k selectors))%list selector = Found el ->
  Client.not_now_loop selectors c h
  = (Client.click el ;; sleep 1500 ;; print "Notification popup dismissed")
      c (h ++ misses (firstn k selectors) ++ [EvQuery selector (Found el)])%list.
Proof.
  revert h k. induction selectors as [|s rest IH]; intros h k Hk Hbefore Hfound.
  - destruct k; discriminate.
  - cbn [Client.not_now_loop]. unfold bind at 1. unfold Client.query_selector.
    destruct (Client.page c); [|congruence].
    destruct k as [|k].
    + injection Hk as ->. cbn in Hfound. rewrite app_nil_r in Hfound.
      rewrite Hfound. reflexivity.
    + specialize (Hbefore 0 s (Nat.lt_0_succ k) eq_refl) as H0.
      cbn in H0. rewrite app_nil_r in H0. rewrite H0.
      rewrite (IH (h ++ [EvQuery s Missing])%list k).
      * cbn [firstn misses map]. norm. reflexivity.
      * exact Hk.
      * intros j s' Hj Hs'. norm. apply (Hbefore (S j) s'); [lia | exact Hs'].
      * norm. exact Hfound.
Qed.

(** When every selector finds nothing, the loop reports it and ends. *)
Lemma not_now_loop_miss (selectors : list string) (h : trace) :
  (forall j s, nth_error selectors j = Some s ->
     on_query (h ++ misses (firstn j selectors))%list s = Missing) ->
  Client.not_now_loop selectors c h
  = (Ok tt, c,
     (h ++ misses selectors
        ++ [EvPrint "'Not Now' button not found in notification dialog"])%list).
Proof.
  revert h. induction selectors as [|s rest IH]; intros h Hall.
  - reflexivity.
  - cbn [Client.not_now_loop]. unfold bind at 1. unfold Client.query_selector.
    destruct (Client.page c); [|congruence].
    specialize (Hall 0 s eq_refl) as H0.
    cbn in H0. rewrite app_nil_r in H0. rewrite H0.
    rewrite IH.
    + cbn [misses map]. norm. reflexivity.
    + intros j s' Hs'. norm. apply (Hall (S j) s'). exact Hs'.
Qed.

End NotNowLoop.

(** The handler never raises, leaves the client as it was, and only probes
    "Not Now" selectors. *)
Lemma notification_popup_returns {env : Env} (c : Client.t) (h : trace) :
  exists T k,
    Client._handle_notification_popup c h = (Ok tt, c, (h ++ T)%list) /\
    probed T = firstn k Client.not_now_selectors.
Proof.
  unfold Client._handle_notification_popup. unfold bind, get.
  destruct (Client.page c) eqn:Hp; cbn [is_some negb].
  - assert (Hpage : Client.page c <> None) by congruence.
    destruct (not_now_loop_prefix c Hpage Client.not_now_selectors h)
      as (r & T & k & E & HT).
    unfold try. rewrite E. destruct r as [[]|e].
    + exists T, k. split; [reflexivity | exact HT].
    + exists (T ++ [EvPrint ("No notification popup appeared: " ++ str e)])%list, k.
      unfold print, emit. norm. split; [reflexivity|].
      rewrite probed_app. cbn. rewrite app_nil_r. exact HT.
  - exists [], 0. rewrite app_nil_r. split; reflexivity.
Qed.

(** C2: [_handle_notification_popup] probes its selectors strictly in the
    order of the list: the selectors probed in a call are always the first [k]
    of the list, for some [k], and the call always returns normally. When the
    selectors before the [k]-th find nothing and the [k]-th finds an element,
    exactly those are probed, in order, the element is clicked, and no later
    selector is probed. When no selector finds anything, all are probed, a
    line is printed and the call returns normally. *)
Theorem C2_ordered_fallback {env : Env} (c : Client.t) (h : trace) :
  Client.page c <> None ->
  (exists T k,
      Client._handle_notification_popup c h = (Ok tt, c, (h ++ T)%list) /\
      probed T = firstn k Client.not_now_selectors) /\
  (forall k selector el,
      nth_error Client.not_now_selectors k = Some selector ->
      (forall j s, j < k -> nth_error Client.not_now_selectors j = Some s ->
         on_query (h ++ misses (firstn j Client.not_now_selectors))%list s = Missing) ->
      on_query (h ++ misses (firstn k Client.not_now_selectors))%list selector = Found el ->
      let h' := (h ++ misses (firstn k Client.not_now_selectors)
                   ++ [EvQuery selector (Found el)])%list in
      Client._handle_notification_popup c h
      = (Ok tt, c,
         (h' ++ match on_act h' (Click el) with
                | None => [ EvAct (Click el) None; EvSleep 1500;
                            EvPrint "Notification popup dismissed" ]
                | Some e => [ EvAct (Click el) (Some e);
                              EvPrint ("No notification popup appeared: " ++ str e) ]
                end)%list)) /\
  ((forall j s, nth_error Client.not_now_selectors j = Some s ->
      on_query (h ++ misses (firstn j Client.not_now_selectors))%list s = Missing) ->
   Client._handle_notification_popup c h
   = (Ok tt, c,
      (h ++ misses Client.not_now_selectors
         ++ [EvPrint "'Not Now' button not found in notification dialog"])%list)).
Proof.
  intros Hpage. split; [|split].
  - apply notification_popup_returns.
  - intros k selector el Hk Hbefore Hfound h'.
    unfold Client._handle_notification_popup, bind at 1, get.
    rewrite (is_some_none _ Hpage). cbn [negb]. unfold try.
    rewrite (not_now_loop_match c Hpage _ h k selector el Hk Hbefore Hfound).
    fold h'. run. destruct (on_act h' (Click el)) as [e|]; norm; reflexivity.
  - intros Hall.
    unfold Client._handle_notification_popup, bind at 1, get.
    rewrite (is_some_none _ Hpage). cbn [negb]. unfold try.
    rewrite (not_now_loop_miss c Hpage _ h Hall). reflexivity.
Qed.

Lemma C2_ordered_fallback_witness :
  @Client._handle_notification_popup third_only ready_client []
  = (Ok tt, ready_client,
     [ EvQuery (nth 0 Client.not_now_selectors "") Missing;
       EvQuery (nth 1 Client.not_now_selectors "") Missing;
       EvQuery (nth 2 Client.not_now_selectors "") (Found 7);
       EvAct (Click 7) None; EvSleep 1500; EvPrint "Notification popup dismissed" ]).
Proof.
  assert (Hpage : Client.page ready_client <> None) by discriminate.
  destruct (@C2_ordered_fallback third_only ready_client [] Hpage) as (_ & Hmatch & _).
  apply (Hmatch 2 (nth 2 Client.not_now_selectors "") 7).
  - reflexivity.
  - intros [|[|j]] s Hj Hs.
    + injection Hs as <-. reflexivity.
    + injection Hs as <-. reflexivity.
    + lia.
  - reflexivity.
Defined.

(** *** The security checks of [login] *)

(** The handler never raises, leaves the client as it was, and only probes
    its two buttons. *)
Lemma security_checks_return {env : Env} (c : Client.t) (h : trace) :
  exists T,
    Client._handle_security_checks c h = (Ok tt, c, (h ++ T)%list) /\
    forall s, In s (probed T) ->
      s = Client.save_info_selector \/ s = Client.not_now_selector.
Proof.
  unfold Client._handle_security_checks.
  destruct (Client.page c) as [p|] eqn:Hp.
  2:{ settle Hp. exists []. rewrite app_nil_r. split; [reflexivity | intros s []]. }
  repeat ask Hp; settle Hp;
    eexists; (split; [reflexivity|]); cbn [probed In]; intros s Hs;
    intuition (subst; auto).
Qed.

(** C10: one call of [_handle_security_checks] probes "Save Info" and then,
    whether that button was there and clicked or was not there, probes "Not
    Now". When both buttons are there, both are clicked: the handler does not
    stop after the first one. When neither is there, the two probes are all
    that happens and the handler returns. It never raises. *)
Theorem C10_security_checks_probe_both {env : Env} (c : Client.t) (h : trace) :
  Client.page c <> None ->
  (forall e1 e2,
      on_query h Client.save_info_selector = Found e1 ->
      on_act (h ++ [EvQuery Client.save_info_selector (Found e1)])%list (Click e1) = None ->
      on_query (h ++ [ EvQuery Client.save_info_selector (Found e1);
                       EvAct (Click e1) None; EvSleep 2000 ])%list
               Client.not_now_selector = Found e2 ->
      exists raised rest,
        Client._handle_security_checks c h
        = (Ok tt, c,
           (h ++ [ EvQuery Client.save_info_selector (Found e1);
                   EvAct (Click e1) None; EvSleep 2000;
                   EvQuery Client.not_now_selector (Found e2);
                   EvAct (Click e2) raised ] ++ rest)%list) /\
        probed rest = []) /\
  (forall e2,
      on_query h Client.save_info_selector = Missing ->
      on_query (h ++ [EvQuery Client.save_info_selector Missing])%list
               Client.not_now_selector = Found e2 ->
      exists raised rest,
        Client._handle_security_checks c h
        = (Ok tt, c,
           (h ++ [ EvQuery Client.save_info_selector Missing;
                   EvQuery Client.not_now_selector (Found e2);
                   EvAct (Click e2) raised ] ++ rest)%list) /\
        probed rest = []) /\
  (on_query h Client.save_info_selector = Missing ->
   on_query (h ++ [EvQuery Client.save_info_selector Missing])%list
            Client.not_now_selector = Missing ->
   Client._handle_security_checks c h
   = (Ok tt, c,
      (h ++ [ EvQuery Client.save_info_selector Missing;
              EvQuery Client.not_now_selector Missing ])%list)) /\
  result (Client._handle_security_checks c h) = Ok tt.
Proof.
  intros Hpage. repeat split.
  - intros e1 e2 Hsave Hclick Hnot.
    unfold Client._handle_security_checks.
    destruct (Client.page c) as [p|] eqn:Hp; [|congruence].
    settle Hp. rewrite Hsave. settle Hp. rewrite Hclick. settle Hp. rewrite Hnot.
    ask Hp; settle Hp; do 2 eexists; (split; [reflexivity|reflexivity]).
  - intros e2 Hsave Hnot.
    unfold Client._handle_security_checks.
    destruct (Client.page c) as [p|] eqn:Hp; [|congruence].
    settle Hp. rewrite Hsave. settle Hp. rewrite Hnot.
    ask Hp; settle Hp; do 2 eexists; (split; [reflexivity|reflexivity]).
  - intros Hsave Hnot.
    unfold Client._handle_security_checks.
    destruct (Client.page c) as [p|] eqn:Hp; [|congruence].
    settle Hp. rewrite Hsave. settle Hp. rewrite Hnot. settle Hp. reflexivity.
  - destruct (security_checks_return c h) as (T & E & _). rewrite E. reflexivity.
Qed.

Lemma C10_security_checks_probe_both_witness :
  exists raised rest,
    @Client._handle_security_checks both_prompts ready_client []
    = (Ok tt, ready_client,
       [ EvQuery Client.save_info_selector (Found 1);
         EvAct (Click 1) None; EvSleep 2000;
         EvQuery Client.not_now_selector (Found 2);
         EvAct (Click 2) raised ] ++ rest)%list /\
    probed rest = [].
Proof.
  assert (Hpage : Client.page ready_client <> None) by discriminate.
  destruct (@C10_security_checks_probe_both both_prompts ready_client [] Hpage)
    as (Hboth & _).
  apply (Hboth 1 2); reflexivity.
Defined.

(** *** [login] *)

(** Membership of an event in a stretch of trace that is written out, apart
    from the stretch [T2] left by a handler that only probes [allowed]
    selectors: every case is impossible. *)
Ltac absent H :=
  repeat (cbn [In] in H;
          match type of H with
          | _ \/ _ => destruct H as [H|H]
          | In _ (_ ++ _)%list => apply in_app_or in H
          end);
  first [ contradiction
        | discriminate H
        | exfalso; vm_compute in H; congruence
        | idtac ].



(** *** [send_direct_message] *)




(** ** Properties of the adapter *)

Lemma try_enveloped (block : M Adapter.t ToolResult) (log_prefix prefix : string)
    (a : Adapter.t) (h : trace) :
  enveloped
    (try block
       (fun e => logger_error (log_prefix ++ str e) ;; ret (fail_response (prefix ++ str e))))
    block log_prefix prefix a h.
Proof.
  unfold enveloped, try, result, final, events.
  destruct (block a h) as [[[res|e] a'] h']; cbn [fst snd].
  - split; [intros e He; discriminate He|]. split; [reflexivity|].
    intros e He. discriminate He.
  - split; [intros e' He'; discriminate He'|].
    split; [intros res Hres; discriminate Hres|].
    intros e' He'. injection He' as <-. reflexivity.
Qed.

(** C5 (as written, refuted): the adapter's [close] has no handler; when the
    browser cannot be closed the error leaves the adapter. *)
Lemma C5_close_lets_the_error_out :
  result (@Adapter.close stuck_browser busy_adapter [])
  = Raise (PlaywrightError "Target closed").
Proof. reflexivity. Qed.

(** C5 (amended): in each of the four tool methods every exception of class
    [Exception] raised during handling is caught at the boundary: it is
    logged and becomes the failure envelope with the error text, so no
    exception of that class leaves the method. The adapter's [close] is not
    such a method: it returns no envelope, and an error of the client's
    [close] leaves it as a raise. *)
Theorem C5_adapter_boundary {env : Env} (a : Adapter.t) (h : trace) :
  (forall username message media_path,
      enveloped (Adapter.instagram_send_direct_message username message media_path)
        (Adapter.send_direct_message_block username message media_path)
        "Failed to send Instagram DM: " "Failed to send message: " a h) /\
  (forall max_posts target_account,
      enveloped (Adapter.instagram_interact_with_posts max_posts target_account)
        (Adapter.interact_with_posts_block (default 20%Z max_posts) target_account)
        "Failed to interact with posts: " "Failed to interact with posts: " a h) /\
  (forall target_account max_followers,
      enveloped (Adapter.instagram_scrape_followers target_account max_followers)
        (Adapter.scrape_followers_block target_account (default 100%Z max_followers))
        "Failed to scrape followers: " "Failed to scrape followers: " a h) /\
  (forall post_caption tone,
      enveloped (Adapter.instagram_generate_comment post_caption tone)
        (Adapter.generate_comment_block post_caption (default "casual" tone))
        "Failed to generate comment: " "Failed to generate comment: " a h) /\
  (forall c b e,
      Adapter.instagram_client a = Some c ->
      Client.browser c = Some b ->
      on_act h (BrowserClose b) = Some e ->
      Adapter.close a h = (Raise e, a, (h ++ [EvAct (BrowserClose b) (Some e)])%list)).
Proof.
  split; [|split; [|split; [|split]]]; try (intros; apply try_enveloped).
  intros c b e Hc Hb He.
  unfold Adapter.close, Adapter.on_client, Client.close. run.
  rewrite Hc. run. rewrite Hc, Hb. run. rewrite He.
  destruct a as [tid cl]. cbn in Hc |- *. rewrite Hc. reflexivity.
Qed.

Lemma C5_adapter_boundary_witness :
  @Adapter.instagram_send_direct_message no_browser "friend" "hello" None
     (Adapter.new "thread-1") []
  = (Ok (fail_response "Failed to send message: Executable not found"),
     final (@Adapter.send_direct_message_block no_browser "friend" "hello" None
              (Adapter.new "thread-1") []),
     (events (@Adapter.send_direct_message_block no_browser "friend" "hello" None
                (Adapter.new "thread-1") [])
        ++ [EvLogError "Failed to send Instagram DM: Executable not found"])%list).
Proof.
  destruct (@C5_adapter_boundary no_browser (Adapter.new "thread-1") []) as (Hsend & _).
  destruct (Hsend "friend" "hello" None) as (_ & _ & Hfail).
  apply (Hfail (PlaywrightError "Executable not found")). reflexivity.
Defined.

(** C8: when the adapter's client is there and its [scrape_followers] returns
    the empty list, [instagram_scrape_followers] returns a success envelope
    whose payload has [followers_count = 0] and [followers = []]. *)
Theorem C8_scrape_followers_empty {env : Env} (a a1 a2 : Adapter.t) (h h1 h2 : trace)
    (target_account : string) (max_followers : option Z) :
  Adapter._ensure_instagram_client a h = (Ok tt, a1, h1) ->
  Adapter.on_client "scrape_followers"
    (Client.scrape_followers target_account (default 100%Z max_followers)) a1 h1
  = (Ok [], a2, h2) ->
  exists d,
    Adapter.instagram_scrape_followers target_account max_followers a h
    = (Ok (success_response d), a2, h2) /\
    success (success_response d) = true /\
    field "followers_count" d = Some (JInt 0) /\
    field "followers" d = Some (JStrs []) /\
    field "target_account" d = Some (JStr target_account) /\
    field "total_available" d
    = Some (JStr ("0/" ++ str_int (default 100%Z max_followers))).
Proof.
  intros Hensure Hscrape.
  unfold Adapter.instagram_scrape_followers, Adapter.scrape_followers_block, try, bind.
  rewrite Hensure, Hscrape. unfold ret.
  eexists. split; [reflexivity|]. repeat split.
Qed.

Lemma C8_scrape_followers_empty_witness :
  exists d,
    result (@Adapter.instagram_scrape_followers blank_page "brand" (Some 50%Z)
              (Adapter.new "thread-1") [])
    = Ok (success_response d) /\
    field "followers_count" d = Some (JInt 0) /\
    field "followers" d = Some (JStrs []).
Proof.
  destruct (@C8_scrape_followers_empty blank_page (Adapter.new "thread-1")
              busy_adapter busy_adapter []
              (events (@Adapter._ensure_instagram_client blank_page (Adapter.new "thread-1") []))
              (events (@Adapter.scrape_followers_block blank_page "brand" 50%Z
                         (Adapter.new "thread-1") []))
              "brand" (Some 50%Z))
    as (d & E & _ & Hcount & Hfollowers & _).
  - reflexivity.
  - reflexivity.
  - exists d. rewrite E. split; [reflexivity|]. split; assumption.
Defined.

(** *** The caption preview *)

Lemma prefix_length (n : nat) (s : string) :
  n <= str_len s -> str_len (prefix n s) = n.
Proof.
  revert n. induction s as [|ch s IH]; intros n Hn.
  - cbn in Hn |- *. lia.
  - cbn [str_len prefix] in Hn |- *. destruct (continuation ch) eqn:Hc.
    + cbn [str_len]. rewrite Hc. apply IH, Hn.
    + destruct n as [|n]; [reflexivity|].
      cbn [str_len]. rewrite Hc. f_equal. apply IH. lia.
Qed.

Lemma prefix_split (n : nat) (s : string) : exists rest, s = prefix n s ++ rest.
Proof.
  revert n. induction s as [|ch s IH]; intros n.
  - exists "". reflexivity.
  - cbn [prefix]. destruct (continuation ch).
    + destruct (IH n) as (rest & E). exists rest. cbn. rewrite <- E. reflexivity.
    + destruct n as [|n].
      * exists (String ch s). reflexivity.
      * destruct (IH n) as (rest & E). exists rest. cbn. rewrite <- E. reflexivity.
Qed.

(** C9: [instagram_generate_comment] returns a success envelope whose payload
    has exactly the fields [message], [generated_comment],
    [post_caption_preview] and [tone]. The preview is the caption when the
    caption has at most 100 characters, and otherwise its first 100 characters
    followed by "..."; [tone] is the tone given, "casual" when none is. The
    characters are those of the Python [str], whatever the number of bytes
    that encode them. *)
Theorem C9_generate_comment_payload (a : Adapter.t) (h : trace)
    (post_caption : string) (tone : option string) :
  exists d preview,
    Adapter.instagram_generate_comment post_caption tone a h
    = (Ok (success_response d), a, h) /\
    map fst d = ["message"; "generated_comment"; "post_caption_preview"; "tone"] /\
    field "message" d = Some (JStr "Comment generated successfully") /\
    field "generated_comment" d = Some (JStr Adapter.placeholder_comment) /\
    field "tone" d = Some (JStr (default "casual" tone)) /\
    field "post_caption_preview" d = Some (JStr preview) /\
    (str_len post_caption <= 100 -> preview = post_caption) /\
    (100 < str_len post_caption ->
     preview = prefix 100 post_caption ++ "..." /\
     str_len (prefix 100 post_caption) = 100 /\
     exists rest, post_caption = prefix 100 post_caption ++ rest).
Proof.
  unfold Adapter.instagram_generate_comment, Adapter.generate_comment_block, try, ret.
  do 2 eexists. split; [reflexivity|]. do 5 (split; [reflexivity|]).
  destruct (Nat.ltb_spec 100 (str_len post_caption)) as [Hlong|Hshort].
  - split; [lia|]. intros _. split; [reflexivity|]. split.
    + apply prefix_length. lia.
    + apply prefix_split.
  - split; [reflexivity|]. lia.
Qed.

Lemma C9_generate_comment_payload_witness :
  (exists d,
      Adapter.instagram_generate_comment long_caption (Some "funny") busy_adapter []
      = (Ok (success_response d), busy_adapter, []) /\
      field "tone" d = Some (JStr "funny") /\
      field "post_caption_preview" d
      = Some (JStr "0123456789012345678901234567890123456789012345678901234567890123456789012345678901234567890123456789...")) /\
  (exists d,
      Adapter.instagram_generate_comment (rockets 101) None busy_adapter []
      = (Ok (success_response d), busy_adapter, []) /\
      field "tone" d = Some (JStr "casual") /\
      field "post_caption_preview" d = Some (JStr (rockets 100 ++ "..."))) /\
  (exists d,
      Adapter.instagram_generate_comment (rockets 30) None busy_adapter []
      = (Ok (success_response d), busy_adapter, []) /\
      field "post_caption_preview" d = Some (JStr (rockets 30))).
Proof.
  split; [|split].
  - destruct (C9_generate_comment_payload busy_adapter [] long_caption (Some "funny"))
      as (d & preview & E & _ & _ & _ & Htone & Hpreview & _ & Hlong).
    exists d. split; [exact E|]. split; [exact Htone|].
    rewrite Hpreview.
    destruct Hlong as (-> & _).
    + apply Nat.ltb_lt. reflexivity.
    + reflexivity.
  - destruct (C9_generate_comment_payload busy_adapter [] (rockets 101) None)
      as (d & preview & E & _ & _ & _ & Htone & Hpreview & _ & Hlong).
    exists d. split; [exact E|]. split; [exact Htone|].
    rewrite Hpreview.
    destruct Hlong as (-> & _).
    + apply Nat.ltb_lt. reflexivity.
    + reflexivity.
  - destruct (C9_generate_comment_payload busy_adapter [] (rockets 30) None)
      as (d & preview & E & _ & _ & _ & _ & Hpreview & Hshort & _).
    exists d. split; [exact E|].
    rewrite Hpreview, Hshort.
    + reflexivity.
    + apply Nat.leb_le. reflexivity.
Defined.

(** ** Further properties of the client *)

(** *** [init] *)

Ltac run_more :=
  cbv [finally main result final events fst snd
       Client.browser Client.page Client.playwright
       Adapter.instagram_client Adapter.thread_id Adapter.set_instagram_client
       Adapter.on_client logger_error].

Ltac run_in H :=
  cbv [bind try ret raise get put emit sleep print act create
       Client.set_browser Client.set_page Client.set_playwright
       Client.click Client.fill Client.set_input_files Client.page_goto
       Client.query_selector is_some negb
       finally main result final events fst snd
       Client.browser Client.page Client.playwright
       Adapter.instagram_client Adapter.thread_id Adapter.set_instagram_client
       Adapter.on_client logger_error] in H.

(** X1: [init] sets the page last: when it returns, the client holds the objects
    of four calls made in order, each named by its place in the trace; when it
    raises, the page reference is the one the client had before, and the
    failed call is the last event. *)
Theorem init_sets_the_page_last {env : Env} (c : Client.t) (h : trace) :
  (forall c' h', Client.init c h = (Ok tt, c', h') ->
     h' = (h ++ [ EvAct StartPlaywright None;
                  EvAct (Launch false Client.launch_args) None;
                  EvAct (NewContext 1920 1080 Client.user_agent) None;
                  EvAct NewPage None ])%list /\
     c' = {| Client.browser := Some (length h + 1);
             Client.page := Some (length h + 3);
             Client.playwright := Some (length h) |}) /\
  (forall e c' h', Client.init c h = (Raise e, c', h') ->
     Client.page c' = Client.page c /\
     exists a, last h' (EvSleep 0) = EvAct a (Some e)).
Proof.
  unfold Client.init. split.
  - intros c' h'. run.
    destruct (on_act h StartPlaywright); [discriminate|].
    destruct (on_act _ (Launch _ _)); [discriminate|].
    destruct (on_act _ (NewContext _ _ _)); [discriminate|].
    destruct (on_act _ NewPage); [discriminate|].
    intros E. injection E as <- <-. norm. split; [reflexivity|].
    repeat rewrite length_app. cbn [length].
    replace (length h + 1 + 1 + 1) with (length h + 3) by lia. reflexivity.
  - intros e c' h'. run.
    destruct (on_act h StartPlaywright) as [e0|].
    { intros E. injection E as <- <- <-. split; [reflexivity|].
      eexists. apply last_last. }
    destruct (on_act _ (Launch _ _)) as [e0|].
    { intros E. injection E as <- <- <-. split; [reflexivity|].
      eexists. apply last_last. }
    destruct (on_act _ (NewContext _ _ _)) as [e0|].
    { intros E. injection E as <- <- <-. split; [reflexivity|].
      eexists. apply last_last. }
    destruct (on_act _ NewPage) as [e0|]; [|discriminate].
    intros E. injection E as <- <- <-. split; [reflexivity|].
    eexists. apply last_last.
Qed.

Lemma init_sets_the_page_last_witness :
  @Client.init blank_page Client.new [] 
  = (Ok tt, ready_client,
     [ EvAct StartPlaywright None;
       EvAct (Launch false Client.launch_args) None;
       EvAct (NewContext 1920 1080 Client.user_agent) None;
       EvAct NewPage None ]) /\
  Client.page (final (@Client.init no_context Client.new [])) = None.
Proof.
  destruct (@init_sets_the_page_last blank_page Client.new []) as (Hok & _).
  destruct (@init_sets_the_page_last no_context Client.new []) as (_ & Hfail).
  split.
  - destruct (Hok _ _ eq_refl) as (_ & _). reflexivity.
  - destruct (Hfail (PlaywrightError "Target closed") _ _ eq_refl) as (Hpage & _).
    exact Hpage.
Defined.

(** X2: [init] does not release what the client already holds: of two [init]s
    that return, only the browser of the second is closed by the [close] that
    follows; the browser of the first is launched and never closed. *)
Theorem init_twice_leaks_the_first_browser {env : Env} (c : Client.t) (h : trace) :
  result ((Client.init ;; Client.init ;; Client.close) c h) = Ok tt ->
  events ((Client.init ;; Client.init ;; Client.close) c h)
  = (h ++ [ EvAct StartPlaywright None;
            EvAct (Launch false Client.launch_args) None;
            EvAct (NewContext 1920 1080 Client.user_agent) None;
            EvAct NewPage None;
            EvAct StartPlaywright None;
            EvAct (Launch false Client.launch_args) None;
            EvAct (NewContext 1920 1080 Client.user_agent) None;
            EvAct NewPage None;
            EvAct (BrowserClose (length h + 5)) None ])%list /\
  Client.browser (final (Client.init c h)) = Some (length h + 1).
Proof.
  unfold Client.init, Client.close. run. run_more.
  repeat match goal with
         | |- context [match on_act ?hh ?a with _ => _ end] =>
             destruct (on_act hh a) as [?e|]; run; run_more
         end;
    try (intros H; discriminate H).
  intros _. norm. cbn [Client.browser Client.page Client.playwright].
  repeat rewrite length_app. cbn [length]. split; [|reflexivity].
  replace (length h + 1 + 1 + 1 + 1 + 1) with (length h + 5) by lia. reflexivity.
Qed.

Lemma init_twice_leaks_the_first_browser_witness :
  acted (events ((@Client.init blank_page ;; @Client.init blank_page ;;
                  @Client.close blank_page) Client.new []))
  = [ StartPlaywright; Launch false Client.launch_args;
      NewContext 1920 1080 Client.user_agent; NewPage;
      StartPlaywright; Launch false Client.launch_args;
      NewContext 1920 1080 Client.user_agent; NewPage;
      BrowserClose 5 ].
Proof.
  destruct (@init_twice_leaks_the_first_browser blank_page Client.new [] eq_refl) as (E & _).
  rewrite E. reflexivity.
Defined.

(** *** [main] *)

(** X3: [main] closes what it launched. In a run of [main] that is not
    interrupted from outside: when the browser was launched, the last thing
    [main] does is close that browser, also when a later step of [init]
    failed; when it was not launched, [main] closes nothing. *)
Theorem main_closes_what_it_launched {env : Env} (h : trace) :
  exists T,
    events (main Client.new h) = (h ++ T)%list /\
    (In (EvAct (Launch false Client.launch_args) None) T ->
     exists raised,
       last T (EvSleep 0) = EvAct (BrowserClose (length h + 1)) raised) /\
    (~ In (EvAct (Launch false Client.launch_args) None) T ->
     forall b, ~ In (BrowserClose b) (acted T)).
Proof.
  unfold main, Client.init, Client.close. run. run_more.
  repeat match goal with
         | |- context [match on_act ?hh ?a with _ => _ end] =>
             destruct (on_act hh a) as [?e|]; run; run_more
         end;
    norm; (eexists; split; [reflexivity|]); split; cbn [In acted last].
  all: try (intros _; eexists; rewrite length_app; cbn [length]; reflexivity).
  all: try (intros Hno; exfalso; apply Hno; tauto).
  all: try (intros Hno b Hb; absent Hb).
  all: intros H; absent H.
Qed.

Lemma main_closes_what_it_launched_witness :
  exists raised,
    last (events (@main no_context Client.new [])) (EvSleep 0) = EvAct (BrowserClose 1) raised.
Proof.
  destruct (@main_closes_what_it_launched no_context []) as (T & E & Hlaunched & _).
  cbn [app] in E. rewrite E.
  destruct Hlaunched as (raised & Hlast).
  - rewrite <- E. vm_compute. right. left. reflexivity.
  - exists raised. rewrite Hlast. reflexivity.
Defined.

(** *** The search for the message input *)

Section FirstMatch.

Context {env : Env}.
Variable c : Client.t.
Hypothesis has_page : Client.page c <> None.

(** The loop over the selectors of the message input stops at the first
    selector that finds an element and hands that element back; the selectors
    after it are not probed. *)
Lemma first_match_found (selectors : list string) (h : trace) (k : nat)
    (selector : string) (el : Element) :
  nth_error selectors k = Some selector ->
  (forall j s, j < k -> nth_error selectors j = Some s ->
     on_query (h ++ misses (firstn j selectors))%list s = Missing) ->
  on_query (h ++ misses (firstn k selectors))%list selector = Found el ->
  Client.first_match selectors c h
  = (Ok (Some el), c,
     (h ++ misses (firstn k selectors) ++ [EvQuery selector (Found el)])%list).
Proof.
  revert h k. induction selectors as [|s rest IH]; intros h k Hk Hbefore Hfound.
  - destruct k; discriminate.
  - cbn [Client.first_match]. unfold bind at 1. unfold Client.query_selector.
    destruct (Client.page c); [|congruence].
    destruct k as [|k].
    + injection Hk as ->. cbn in Hfound. rewrite app_nil_r in Hfound.
      rewrite Hfound. reflexivity.
    + specialize (Hbefore 0 s (Nat.lt_0_succ k) eq_refl) as H0.
      cbn in H0. rewrite app_nil_r in H0. rewrite H0.
      rewrite (IH (h ++ [EvQuery s Missing])%list k).
      * cbn [firstn misses map]. norm. reflexivity.
      * exact Hk.
      * intros j s' Hj Hs'. norm. apply (Hbefore (S j) s'); [lia | exact Hs'].
      * norm. exact Hfound.
Qed.

Lemma first_match_none (selectors : list string) (h : trace) :
  (forall j s, nth_error selectors j = Some s ->
     on_query (h ++ misses (firstn j selectors))%list s = Missing) ->
  Client.first_match selectors c h = (Ok None, c, (h ++ misses selectors)%list).
Proof.
  revert h. induction selectors as [|s rest IH]; intros h Hall.
  - cbn. rewrite app_nil_r. reflexivity.
  - cbn [Client.first_match]. unfold bind at 1. unfold Client.query_selector.
    destruct (Client.page c); [|congruence].
    specialize (Hall 0 s eq_refl) as H0.
    cbn in H0. rewrite app_nil_r in H0. rewrite H0.
    rewrite IH.
    + cbn [misses map]. norm. reflexivity.
    + intros j s' Hs'. norm. apply (Hall (S j) s'). exact Hs'.
Qed.

End FirstMatch.

(** X4: The message input is looked for with the three selectors in their order:
    when the selectors before the [k]-th find nothing and the [k]-th finds an
    element, that element is the message input and no later selector is
    probed; when none finds anything, all three were probed and there is no
    message input. *)
Theorem message_input_first_match_wins {env : Env} (c : Client.t) (h : trace) :
  Client.page c <> None ->
  (forall k selector el,
      nth_error Client.message_input_selectors k = Some selector ->
      (forall j s, j < k -> nth_error Client.message_input_selectors j = Some s ->
         on_query (h ++ misses (firstn j Client.message_input_selectors))%list s = Missing) ->
      on_query (h ++ misses (firstn k Client.message_input_selectors))%list selector
      = Found el ->
      Client.first_match Client.message_input_selectors c h
      = (Ok (Some el), c,
         (h ++ misses (firstn k Client.message_input_selectors)
            ++ [EvQuery selector (Found el)])%list)) /\
  ((forall j s, nth_error Client.message_input_selectors j = Some s ->
      on_query (h ++ misses (firstn j Client.message_input_selectors))%list s = Missing) ->
   Client.first_match Client.message_input_selectors c h
   = (Ok None, c, (h ++ misses Client.message_input_selectors)%list)).
Proof.
  intros Hpage. split.
  - intros k selector el. apply first_match_found. exact Hpage.
  - apply first_match_none. exact Hpage.
Qed.

Lemma message_input_first_match_wins_witness :
  @Client.first_match full_page Client.message_input_selectors ready_client []
  = (Ok (Some 21), ready_client,
     [ EvQuery (nth 0 Client.message_input_selectors "") Missing;
       EvQuery (nth 1 Client.message_input_selectors "") (Found 21) ]).
Proof.
  assert (Hpage : Client.page ready_client <> None) by discriminate.
  destruct (@message_input_first_match_wins full_page ready_client [] Hpage) as (Hfound & _).
  apply (Hfound 1 (nth 1 Client.message_input_selectors "") 21).
  - reflexivity.
  - intros [|j] s Hj Hs.
    + injection Hs as <-. reflexivity.
    + lia.
  - reflexivity.
Defined.

(** *** What [login] did when it says so *)

(** X5: When [login] returns [True], it went to the login page, found the three
    controls, typed the resolved username and password (the argument when it
    is a non-empty string, the configuration otherwise) into the inputs it
    found, clicked the submit control it found, ran the security checks and
    printed "Login successful" last. *)
Theorem login_true_means_submitted {env : Env} (c : Client.t) (h : trace)
    (username password : option string) :
  result (Client.login username password c h) = Ok true ->
  exists u p b name pw T2,
    events (Client.login username password c h)
    = (h ++ [ EvAct (Goto Client.login_url (Some "networkidle")) None; EvSleep 3000;
              EvQuery Client.username_selector (Found u);
              EvQuery Client.password_selector (Found p);
              EvAct (Fill u name) None; EvAct (Fill p pw) None; EvSleep 1000;
              EvQuery Client.submit_selector (Found b);
              EvAct (Click b) None; EvSleep 5000 ]
         ++ T2 ++ [EvPrint "Login successful"])%list /\
    name = match username with
           | Some (String ch s) => String ch s
           | _ => text (getenv "IG_USERNAME")
           end /\
    pw = match password with
         | Some (String ch s) => String ch s
         | _ => text (getenv "IG_PASSWORD")
         end /\
    name <> "" /\ pw <> "" /\
    (forall s, In s (probed T2) ->
       s = Client.save_info_selector \/ s = Client.not_now_selector).
Proof.
  unfold Client.login.
  destruct (Client.page c) as [pg|] eqn:Hp; [|run; rewrite Hp; run; discriminate].
  settle Hp.
  destruct (truthy (py_or username (getenv "IG_USERNAME"))) eqn:Hu;
    [|cbn; discriminate].
  destruct (truthy (py_or password (getenv "IG_PASSWORD"))) eqn:Hpw;
    [|cbn; discriminate].
  cbn [negb orb].
  repeat ask Hp; settle Hp;
    try match goal with
        | |- context [Client._handle_security_checks ?cc ?hh] =>
            destruct (security_checks_return cc hh) as (T2 & E2 & HT2);
            rewrite E2; settle Hp
        end;
    cbn [result final events fst snd];
    try (intros H; discriminate H).
  intros _. do 6 eexists. split; [reflexivity|].
  split; [|split; [|split; [|split; [|exact HT2]]]].
  - unfold py_or. destruct username as [[|ch s]|]; reflexivity.
  - unfold py_or. destruct password as [[|ch s]|]; reflexivity.
  - clear -Hu. destruct (py_or username (getenv "IG_USERNAME")) as [[|]|];
      cbn in *; congruence.
  - clear -Hpw. destruct (py_or password (getenv "IG_PASSWORD")) as [[|]|];
      cbn in *; congruence.
Qed.

Lemma login_true_means_submitted_witness :
  exists u p b name pw T2,
    events (@Client.login full_page (Some "") (Some "hunter2") ready_client [])
    = ([ EvAct (Goto Client.login_url (Some "networkidle")) None; EvSleep 3000;
         EvQuery Client.username_selector (Found u);
         EvQuery Client.password_selector (Found p);
         EvAct (Fill u name) None; EvAct (Fill p pw) None; EvSleep 1000;
         EvQuery Client.submit_selector (Found b);
         EvAct (Click b) None; EvSleep 5000 ]
         ++ T2 ++ [EvPrint "Login successful"])%list /\
    name = "acme" /\ pw = "hunter2".
Proof.
  destruct (@login_true_means_submitted full_page ready_client []
              (Some "") (Some "hunter2") eq_refl)
    as (u & p & b & name & pw & T2 & E & Hname & Hpw & _).
  exists u, p, b, name, pw, T2.
  split; [exact E|]. split; [exact Hname | exact Hpw].
Defined.

(** *** What [send_direct_message] did when it returns *)

Lemma acted_In (T : trace) (a : action) (r : option exn) :
  In (EvAct a r) T -> In a (acted T).
Proof.
  induction T as [|ev T IH]; [intros []|].
  intros [-> | H].
  - left. reflexivity.
  - destruct ev; cbn; auto.
Qed.

Lemma acted_app (T1 T2 : trace) : acted (T1 ++ T2)%list = (acted T1 ++ acted T2)%list.
Proof.
  induction T1 as [|ev T1 IH]; [reflexivity|].
  destruct ev; cbn; rewrite IH; reflexivity.
Qed.

(** The popup handler calls nothing but clicks. *)
Lemma not_now_loop_only_clicks {env : Env} (c : Client.t) (selectors : list string)
    (h : trace) :
  Client.page c <> None ->
  exists r T,
    Client.not_now_loop selectors c h = (r, c, (h ++ T)%list) /\
    forall a, In a (acted T) -> exists el, a = Click el.
Proof.
  intros Hpage. revert h. induction selectors as [|s rest IH]; intros h.
  - exists (Ok tt), [EvPrint "'Not Now' button not found in notification dialog"].
    split; [reflexivity | intros a []].
  - cbn [Client.not_now_loop]. run.
    destruct (Client.page c); [|congruence].
    destruct (on_query h s) as [el| |e].
    + destruct (on_act _ (Click el)) as [e|]; do 2 eexists; norm;
        (split; [reflexivity|]); cbn [acted In]; intros a [<-|[]]; eexists; reflexivity.
    + destruct (IH (h ++ [EvQuery s Missing])%list) as (r & T & E & HT).
      exists r, (EvQuery s Missing :: T). rewrite E. norm.
      split; [reflexivity | exact HT].
    + do 2 eexists. split; [reflexivity | intros a []].
Qed.

Lemma notification_popup_only_clicks {env : Env} (c : Client.t) (h : trace) :
  exists T k,
    Client._handle_notification_popup c h = (Ok tt, c, (h ++ T)%list) /\
    probed T = firstn k Client.not_now_selectors /\
    forall a, In a (acted T) -> exists el, a = Click el.
Proof.
  destruct (notification_popup_returns c h) as (T & k & E & HT).
  exists T, k. split; [exact E|]. split; [exact HT|].
  revert E. unfold Client._handle_notification_popup, bind, get.
  destruct (Client.page c) eqn:Hp; cbn [is_some negb].
  - assert (Hpage : Client.page c <> None) by congruence.
    destruct (not_now_loop_only_clicks c Client.not_now_selectors h Hpage)
      as (r & T' & E' & HT').
    unfold try. rewrite E'. destruct r as [[]|e].
    + intros E. injection E as E. apply app_inv_head in E. subst T'. exact HT'.
    + unfold print, emit. norm. intros E. injection E as E.
      apply app_inv_head in E. subst T. intros a Ha.
      rewrite acted_app in Ha. cbn in Ha. rewrite app_nil_r in Ha. apply HT', Ha.
  - unfold ret. intros E. injection E as E.
    rewrite <- (app_nil_r h) in E at 1. apply app_inv_head in E. subst T.
    intros a [].
Qed.

Ltac find_in :=
  solve [ repeat first [ left; reflexivity | right | apply in_or_app; right ] ].

Ltac no_such H :=
  solve [ exfalso; absent H;
          match goal with
          | HT : forall a, In a (acted _) -> exists el, a = Click el |- _ =>
              apply acted_In, HT in H; destruct H as (? & H); discriminate H
          end ].

(** Every run of [send_direct_message] on an initialized session: what it
    leaves, and what it did when it returned. *)
Lemma send_direct_message_cases {env : Env} (c : Client.t) (h : trace)
    (username message : string) (media_path : option string) :
  Client.page c <> None ->
  exists T,
    events (Client.send_direct_message username message media_path c h) = (h ++ T)%list /\
    final (Client.send_direct_message username message media_path c h) = c /\
    (result (Client.send_direct_message username message media_path c h) = Ok tt ->
     exists mb mi selector sb,
       In (EvAct (Goto ("https://www.instagram.com/" ++ username ++ "/")
                    (Some "networkidle")) None) T /\
       In (EvQuery Client.message_button_selector (Found mb)) T /\
       In (EvAct (Click mb) None) T /\
       In (EvAct (Fill mi message) None) T /\
       In (EvQuery selector (Found mi)) T /\
       In selector Client.message_input_selectors /\
       In (EvQuery Client.send_button_selector (Found sb)) T /\
       In (EvAct (Click sb) None) T /\
       last T (EvSleep 0) = EvPrint "Message sent successfully" /\
       (truthy media_path = true ->
        (exists fi, In (EvAct (SetInputFiles fi (text media_path)) None) T) \/
        In (EvPrint "File input not found for media attachment") T) /\
       (truthy media_path = false ->
        forall fi path raised, ~ In (EvAct (SetInputFiles fi path) raised) T)).
Proof.
  intros Hpage. unfold Client.send_direct_message.
  destruct (Client.page c) as [p|] eqn:Hp; [|congruence].
  destruct (truthy media_path) eqn:Hmedia.
  all: repeat first
         [ ask Hp
         | match goal with
           | |- context [Client._handle_notification_popup ?cc ?hh] =>
               destruct (notification_popup_only_clicks cc hh)
                 as (T1 & k1 & E1 & HT1 & Hclicks);
               rewrite E1
           end ].
  all: settle Hp; cbn [result final events fst snd].
  all: eexists; split; [reflexivity|]; split; [reflexivity|].
  all: try (intros H; discriminate H).
  all: intros _; do 4 eexists.
  all: do 8 (split; [find_in|]).
  all: split; [repeat rewrite app_comm_cons; rewrite ?last_skip; reflexivity|].
  all: split; intros Hm; try discriminate Hm.
  all: try (left; eexists; find_in).
  all: try (right; find_in).
  all: intros fi path raised H; no_such H.
Qed.

(** X6: When [send_direct_message] returns, it found and clicked the message
    button, typed the message into an element found by one of the selectors
    of the message input, found and clicked the send button, and printed
    "Message sent successfully" last. A media path that is a non-empty string
    was set on the file input when there was one, and skipped with a printed
    line when there was none; without such a path no file was set. *)
Theorem send_direct_message_returns_after_sending {env : Env} (c : Client.t) (h : trace)
    (username message : string) (media_path : option string) :
  result (Client.send_direct_message username message media_path c h) = Ok tt ->
  exists T mb mi selector sb,
    events (Client.send_direct_message username message media_path c h) = (h ++ T)%list /\
    In (EvAct (Goto ("https://www.instagram.com/" ++ username ++ "/")
                 (Some "networkidle")) None) T /\
    In (EvQuery Client.message_button_selector (Found mb)) T /\
    In (EvAct (Click mb) None) T /\
    In (EvAct (Fill mi message) None) T /\
    In (EvQuery selector (Found mi)) T /\
    In selector Client.message_input_selectors /\
    In (EvQuery Client.send_button_selector (Found sb)) T /\
    In (EvAct (Click sb) None) T /\
    last T (EvSleep 0) = EvPrint "Message sent successfully" /\
    (truthy media_path = true ->
     (exists fi, In (EvAct (SetInputFiles fi (text media_path)) None) T) \/
     In (EvPrint "File input not found for media attachment") T) /\
    (truthy media_path = false ->
     forall fi path raised, ~ In (EvAct (SetInputFiles fi path) raised) T).
Proof.
  intros Hok.
  assert (Hpage : Client.page c <> None).
  { intros Hp. revert Hok. unfold Client.send_direct_message. run. rewrite Hp.
    discriminate. }
  destruct (send_direct_message_cases c h username message media_path Hpage)
    as (T & E & _ & Hsent).
  destruct (Hsent Hok) as (mb & mi & selector & sb & Hfacts).
  exists T, mb, mi, selector, sb. split; [exact E | exact Hfacts].
Qed.

Lemma send_direct_message_returns_after_sending_witness :
  exists mi,
    In (EvAct (Fill mi "hello") None)
       (events (@Client.send_direct_message full_page "friend" "hello"
                  (Some "/tmp/offer.pdf") ready_client [])) /\
    In (EvPrint "File input not found for media attachment")
       (events (@Client.send_direct_message full_page "friend" "hello"
                  (Some "/tmp/offer.pdf") ready_client [])).
Proof.
  destruct (@send_direct_message_returns_after_sending full_page ready_client []
              "friend" "hello" (Some "/tmp/offer.pdf") eq_refl)
    as (T & mb & mi & selector & sb & E & _ & _ & _ & Hfill & _ & _ & _ & _ & _ & Hmedia & _).
  cbn [app] in E. rewrite E.
  exists mi. split; [exact Hfill|].
  destruct (Hmedia eq_refl) as [(fi & Hset) | Hskip]; [|exact Hskip].
  exfalso. rewrite <- E in Hset. vm_compute in Hset. intuition discriminate.
Defined.

(** *** What the calls leave of the client *)

Lemma login_keeps_client {env : Env} (c : Client.t) (h : trace)
    (username password : option string) :
  final (Client.login username password c h) = c.
Proof.
  unfold Client.login.
  destruct (Client.page c) as [pg|] eqn:Hp; [|run; rewrite Hp; reflexivity].
  settle Hp.
  destruct (truthy (py_or username (getenv "IG_USERNAME"))); [|reflexivity].
  destruct (truthy (py_or password (getenv "IG_PASSWORD"))); [|reflexivity].
  cbn [negb orb].
  repeat ask Hp; settle Hp;
    try match goal with
        | |- context [Client._handle_security_checks ?cc ?hh] =>
            destruct (security_checks_return cc hh) as (T2 & E2 & HT2);
            rewrite E2; settle Hp
        end;
    reflexivity.
Qed.

Lemma send_direct_message_keeps_client {env : Env} (c : Client.t) (h : trace)
    (username message : string) (media_path : option string) :
  final (Client.send_direct_message username message media_path c h) = c.
Proof.
  destruct (Client.page c) as [pg|] eqn:Hp.
  - assert (Hpage : Client.page c <> None) by congruence.
    destruct (send_direct_message_cases c h username message media_path Hpage)
      as (_ & _ & Hc & _). exact Hc.
  - unfold Client.send_direct_message. run. rewrite Hp. reflexivity.
Qed.

Lemma stub_keeps_client {env : Env} (c : Client.t) (h : trace) :
  (forall max_posts, final (Client.interact_with_posts max_posts c h) = c) /\
  (forall target_account max_followers,
      final (Client.scrape_followers target_account max_followers c h) = c) /\
  (forall post_caption, final (Client.generate_comment post_caption c h) = c).
Proof.
  repeat split; intros;
    unfold Client.interact_with_posts, Client.scrape_followers; run;
    destruct (Client.page c); reflexivity.
Qed.

(** X7: Only [init] and [close] assign fields of the client: [login],
    [send_direct_message], [interact_with_posts], [scrape_followers] and
    [generate_comment] leave every field as it was, whether they return or
    raise. *)
Theorem actions_keep_the_client {env : Env} (c : Client.t) (h : trace) :
  (forall username password, final (Client.login username password c h) = c) /\
  (forall username message media_path,
      final (Client.send_direct_message username message media_path c h) = c) /\
  (forall max_posts, final (Client.interact_with_posts max_posts c h) = c) /\
  (forall target_account max_followers,
      final (Client.scrape_followers target_account max_followers c h) = c) /\
  (forall post_caption, final (Client.generate_comment post_caption c h) = c).
Proof.
  split; [intros; apply login_keeps_client|].
  split; [intros; apply send_direct_message_keeps_client|].
  apply stub_keeps_client.
Qed.

Lemma after_keeps_wf {env : Env} (k : call) (c : Client.t) (h : trace) :
  wf c -> wf (fst (after k c h)).
Proof.
  intros Hwf. destruct k; cbn [after fst].
  - apply wf_init, Hwf.
  - rewrite login_keeps_client. exact Hwf.
  - rewrite send_direct_message_keeps_client. exact Hwf.
  - destruct (stub_keeps_client c h) as (E & _). rewrite E. exact Hwf.
  - destruct (stub_keeps_client c h) as (_ & E & _). rewrite E. exact Hwf.
  - destruct (stub_keeps_client c h) as (_ & _ & E). rewrite E. exact Hwf.
  - apply wf_close, Hwf.
Qed.

Lemma after_all_keeps_wf {env : Env} (ks : list call) (c : Client.t) (h : trace) :
  wf c -> wf (fst (after_all ks c h)).
Proof.
  revert c h. induction ks as [|k ks IH]; intros c h Hwf.
  - exact Hwf.
  - cbn [after_all]. apply IH, after_keeps_wf, Hwf.
Qed.

(** X8: Whatever calls a user makes on a new client, in whatever order and
    whether they return or raise, the client never holds a page without the
    browser of that page; so a [close] that then returns always leaves the
    client without browser and without page, and the next action fails with
    "Page not initialized". *)
Theorem close_after_any_calls_ends_the_session {env : Env} (ks : list call) (h : trace) :
  wf (fst (after_all ks Client.new h)) /\
  (forall c' h',
      Client.close (fst (after_all ks Client.new h)) (snd (after_all ks Client.new h))
      = (Ok tt, c', h') ->
      Client.browser c' = None /\ Client.page c' = None /\
      forall target_account max_followers,
        Client.scrape_followers target_account max_followers c' h'
        = (Raise (ValueError "Page not initialized"), c', h')).
Proof.
  assert (Hwf : wf (fst (after_all ks Client.new h)))
    by apply after_all_keeps_wf, wf_new.
  split; [exact Hwf|].
  intros c' h'. generalize dependent (fst (after_all ks Client.new h)).
  generalize (snd (after_all ks Client.new h)).
  intros h0 c0 Hwf Hclose.
  assert (Hc' : Client.browser c' = None /\ Client.page c' = None).
  { revert Hclose. unfold Client.close. run.
    destruct (Client.browser c0) eqn:Hb.
    - destruct (on_act h0 (BrowserClose b)); [discriminate|].
      intros E. injection E as <- <-. split; reflexivity.
    - intros E. injection E as <- <-. split; [exact Hb|].
      destruct (Client.page c0) eqn:Hp; [|reflexivity].
      elim Hwf; [rewrite Hp; discriminate | exact Hb]. }
  destruct Hc' as (Hb' & Hp'). repeat split; try assumption.
  unfold Client.scrape_followers. run. rewrite Hp'. reflexivity.
Qed.

Lemma close_after_any_calls_ends_the_session_witness :
  Client.page
    (final (@Client.close no_context
              (fst (@after_all no_context [CallInit; CallLogin None None; CallInit] Client.new []))
              (snd (@after_all no_context [CallInit; CallLogin None None; CallInit] Client.new []))))
  = None.
Proof.
  destruct (@close_after_any_calls_ends_the_session no_context
              [CallInit; CallLogin None None; CallInit] []) as (_ & Hclose).
  destruct (Hclose _ _ eq_refl) as (_ & Hpage & _).
  exact Hpage.
Defined.

(** ** Further properties of the adapter *)

Ltac answer_acts :=
  repeat match goal with
         | |- context [match on_act ?hh ?a with _ => _ end] =>
             destruct (on_act hh a) as [?e|]; run; run_more
         | H : context [match on_act ?hh ?a with _ => _ end] |- _ =>
             destruct (on_act hh a) as [?e|]; run_in H
         end.

(** X9: The adapter builds and initializes its client once: on an adapter that
    holds a client [_ensure_instagram_client] does nothing, so doing it twice
    is doing it once; when it returns having built the client, the four calls
    of [init] were made and the client has its page. *)
Theorem ensure_builds_the_client_once {env : Env} (a : Adapter.t) (h : trace) :
  (Adapter._ensure_instagram_client ;; Adapter._ensure_instagram_client) a h
  = Adapter._ensure_instagram_client a h /\
  (Adapter.instagram_client a <> None ->
   Adapter._ensure_instagram_client a h = (Ok tt, a, h)) /\
  (Adapter.instagram_client a = None ->
   forall a1 h1, Adapter._ensure_instagram_client a h = (Ok tt, a1, h1) ->
     h1 = (h ++ [ EvAct StartPlaywright None;
                  EvAct (Launch false Client.launch_args) None;
                  EvAct (NewContext 1920 1080 Client.user_agent) None;
                  EvAct NewPage None ])%list /\
     exists c, Adapter.instagram_client a1 = Some c /\ Client.page c <> None).
Proof.
  destruct a as [tid [c|]]; unfold Adapter._ensure_instagram_client, Client.init.
  - split; [reflexivity|]. split; [reflexivity|]. intros H; discriminate H.
  - split; [|split].
    + run. run_more. answer_acts; reflexivity.
    + intros H. elim H. reflexivity.
    + intros _ a1 h1. run. run_more. answer_acts; try discriminate.
      intros E. injection E as <- <-. norm. split; [reflexivity|].
      eexists. split; [reflexivity|]. cbn. discriminate.
Qed.

Lemma ensure_builds_the_client_once_witness :
  @Adapter._ensure_instagram_client blank_page (Adapter.new "thread-1") []
  = (Ok tt, busy_adapter,
     [ EvAct StartPlaywright None;
       EvAct (Launch false Client.launch_args) None;
       EvAct (NewContext 1920 1080 Client.user_agent) None;
       EvAct NewPage None ]) /\
  @Adapter._ensure_instagram_client blank_page busy_adapter [] = (Ok tt, busy_adapter, []).
Proof.
  destruct (@ensure_builds_the_client_once blank_page busy_adapter []) as (_ & Hheld & _).
  destruct (@ensure_builds_the_client_once blank_page (Adapter.new "thread-1") [])
    as (_ & _ & Hbuilt).
  split.
  - destruct (Hbuilt eq_refl _ _ eq_refl) as (_ & _). reflexivity.
  - apply Hheld. discriminate.
Defined.

(** X10: A failed [init] sticks: the adapter stores the client before it
    initializes it, so when the first [init] raises, the adapter keeps a client
    without a page and never initializes it again. Every later call that needs
    the session then makes no browser call and returns a failure envelope:
    "Page not initialized", or the [AttributeError] of [None.goto] when
    [instagram_interact_with_posts] is given a target account. *)
Theorem failed_init_sticks {env : Env} (a a1 : Adapter.t) (h h1 : trace) (e : exn) :
  Adapter.instagram_client a = None ->
  Adapter._ensure_instagram_client a h = (Raise e, a1, h1) ->
  (exists c1, Adapter.instagram_client a1 = Some c1 /\ Client.page c1 = None) /\
  forall h2,
    (forall target_account max_followers,
        Adapter.instagram_scrape_followers target_account max_followers a1 h2
        = (Ok (fail_response "Failed to scrape followers: Page not initialized"), a1,
           (h2 ++ [EvLogError "Failed to scrape followers: Page not initialized"])%list)) /\
    (forall username message media_path,
        Adapter.instagram_send_direct_message username message media_path a1 h2
        = (Ok (fail_response "Failed to send message: Page not initialized"), a1,
           (h2 ++ [EvLogError "Failed to send Instagram DM: Page not initialized"])%list)) /\
    (forall max_posts target_account,
        truthy target_account = false ->
        Adapter.instagram_interact_with_posts max_posts target_account a1 h2
        = (Ok (fail_response "Failed to interact with posts: Page not initialized"), a1,
           (h2 ++ [EvLogError "Failed to interact with posts: Page not initialized"])%list)) /\
    (forall max_posts target_account,
        truthy target_account = true ->
        Adapter.instagram_interact_with_posts max_posts target_account a1 h2
        = (Ok (fail_response
                 "Failed to interact with posts: 'NoneType' object has no attribute 'goto'"),
           a1,
           (h2 ++ [EvLogError
                     "Failed to interact with posts: 'NoneType' object has no attribute 'goto'"])%list)).
Proof.
  destruct a as [tid cl]. cbn [Adapter.instagram_client]. intros -> Hensure.
  unfold Adapter._ensure_instagram_client, Client.init in Hensure.
  run_in Hensure. answer_acts; try discriminate Hensure.
  all: injection Hensure as <- <- <-.
  all: split; [eexists; split; reflexivity|].
  all: intros h2; split; [|split; [|split]]; intros.
  all: try reflexivity.
  all: unfold Adapter.instagram_interact_with_posts, Adapter.interact_with_posts_block;
    match goal with H : truthy _ = _ |- _ => rewrite H end; reflexivity.
Qed.

Lemma failed_init_sticks_witness :
  result (@Adapter.instagram_scrape_followers no_context "brand" None
            (final (@Adapter._ensure_instagram_client no_context (Adapter.new "thread-1") []))
            [])
  = Ok (fail_response "Failed to scrape followers: Page not initialized").
Proof.
  destruct (@failed_init_sticks no_context (Adapter.new "thread-1")
              (final (@Adapter._ensure_instagram_client no_context (Adapter.new "thread-1") []))
              [] (events (@Adapter._ensure_instagram_client no_context (Adapter.new "thread-1") []))
              (PlaywrightError "Target closed") eq_refl eq_refl) as (_ & Hlater).
  destruct (Hlater []) as (Hscrape & _).
  rewrite Hscrape. reflexivity.
Defined.

(** X11: The adapter's [close]: when it returns, the adapter holds no client, and
    a further [close] does nothing, so closing twice is closing once; when it
    raises, the adapter still holds the client with its browser, and the
    failed call is the closing of that browser. After a [close] that
    returned, the next call that needs the client starts Playwright again. *)
Theorem adapter_close_drops_the_client {env : Env} (a : Adapter.t) (h : trace) :
  (Adapter.close ;; Adapter.close) a h = Adapter.close a h /\
  (forall a' h', Adapter.close a h = (Ok tt, a', h') ->
     Adapter.instagram_client a' = None /\
     Adapter.close a' h' = (Ok tt, a', h') /\
     exists raised rest,
       events (Adapter._ensure_instagram_client a' h')
       = (h' ++ EvAct StartPlaywright raised :: rest)%list) /\
  (forall e a' h', Adapter.close a h = (Raise e, a', h') ->
     exists c b,
       Adapter.instagram_client a' = Some c /\ Client.browser c = Some b /\
       last h' (EvSleep 0) = EvAct (BrowserClose b) (Some e)).
Proof.
  assert (Hstart : forall tid h',
             exists raised rest,
               events (Adapter._ensure_instagram_client
                         {| Adapter.thread_id := tid; Adapter.instagram_client := None |} h')
               = (h' ++ EvAct StartPlaywright raised :: rest)%list).
  { intros tid h'. unfold Adapter._ensure_instagram_client, Client.init.
    run. run_more. answer_acts; norm; do 2 eexists; reflexivity. }
  destruct a as [tid [[[b|] p pw]|]]; unfold Adapter.close, Client.close;
    run; run_more.
  - destruct (on_act h (BrowserClose b)) as [e|]; run; run_more.
    + split; [reflexivity|]. split; [intros a' h' E; discriminate E|].
      intros e' a' h' E. injection E as <- <- <-.
      do 2 eexists. split; [reflexivity|]. split; [reflexivity|]. apply last_last.
    + split; [reflexivity|]. split; [|intros e' a' h' E; discriminate E].
      intros a' h' E. injection E as <- <-.
      split; [reflexivity|]. split; [reflexivity|]. apply Hstart.
  - split; [reflexivity|]. split; [|intros e' a' h' E; discriminate E].
    intros a' h' E. injection E as <- <-.
    split; [reflexivity|]. split; [reflexivity|]. apply Hstart.
  - split; [reflexivity|]. split; [|intros e' a' h' E; discriminate E].
    intros a' h' E. injection E as <- <-.
    split; [reflexivity|]. split; [reflexivity|]. apply Hstart.
Qed.

Lemma adapter_close_drops_the_client_witness :
  Adapter.instagram_client (final (@Adapter.close blank_page busy_adapter [])) = None /\
  exists c b,
    Adapter.instagram_client (final (@Adapter.close stuck_browser busy_adapter [])) = Some c /\
    Client.browser c = Some b.
Proof.
  destruct (@adapter_close_drops_the_client blank_page busy_adapter []) as (_ & Hok & _).
  destruct (@adapter_close_drops_the_client stuck_browser busy_adapter []) as (_ & _ & Hfail).
  split.
  - destruct (Hok _ _ eq_refl) as (Hnone & _). exact Hnone.
  - destruct (Hfail (PlaywrightError "Target closed") _ _ eq_refl) as (c & b & Hc & Hb & _).
    exists c, b. split; assumption.
Defined.

(** *** The tool methods *)

(** X12: [instagram_scrape_followers] never looks at a page: it probes nothing and
    navigates nowhere, and on an adapter that holds a client it calls nothing
    at all. Whenever it returns a success envelope, the envelope reports no
    follower: count 0, the empty list, and "0/" followed by the number asked
    for, 100 when none is given. A failure envelope that it returns carries
    the text of the error. *)
Theorem scrape_followers_reports_none {env : Env} (a : Adapter.t) (h : trace)
    (target_account : string) (max_followers : option Z) :
  exists T,
    events (Adapter.instagram_scrape_followers target_account max_followers a h)
    = (h ++ T)%list /\
    probed T = [] /\
    (forall url wait_until, ~ In (Goto url wait_until) (acted T)) /\
    (Adapter.instagram_client a <> None -> acted T = []) /\
    forall res,
      result (Adapter.instagram_scrape_followers target_account max_followers a h)
      = Ok res ->
      (success res = true ->
       exists d,
         output res = Data d /\
         field "followers_count" d = Some (JInt 0) /\
         field "followers" d = Some (JStrs []) /\
         field "total_available" d
         = Some (JStr ("0/" ++ str_int (default 100%Z max_followers)))) /\
      (success res = false ->
       exists e, output res = Message ("Failed to scrape followers: " ++ str e)).
Proof.
  unfold Adapter.instagram_scrape_followers, Adapter.scrape_followers_block,
    Adapter._ensure_instagram_client, Client.init, Client.scrape_followers.
  destruct a as [tid [[b [p|] pw]|]]; run; run_more; answer_acts; norm.
  all: eexists; split; [reflexivity|].
  all: split; [reflexivity|].
  all: split; [intros url wait_until H; cbn in H; intuition discriminate|].
  all: split; [first [reflexivity | intros H; elim H; reflexivity]|].
  all: intros res Hres; injection Hres as <-.
  all: split; intros H; try discriminate H.
  all: try solve [eexists; repeat split].
  all: first [ eexists; reflexivity
             | exists (ValueError "Page not initialized"); reflexivity ].
Qed.

(** X13: [instagram_interact_with_posts] on an adapter whose client has its page:
    the only browser call it can make is one navigation, to the profile of the
    target account when that is a non-empty string, and without waiting for
    the network; it probes nothing and touches no post. Its success envelope
    nevertheless reports [posts_processed] as the number asked for, 20 when
    none is given. *)
Theorem interact_with_posts_only_navigates {env : Env} (a : Adapter.t) (h : trace)
    (c : Client.t) (max_posts : option Z) (target_account : option string) :
  Adapter.instagram_client a = Some c ->
  Client.page c <> None ->
  exists res T,
    Adapter.instagram_interact_with_posts max_posts target_account a h
    = (Ok res, a, (h ++ T)%list) /\
    probed T = [] /\
    acted T = (if truthy target_account
               then [Goto ("https://www.instagram.com/" ++ text target_account ++ "/") None]
               else []) /\
    (success res = true ->
     exists d,
       output res = Data d /\
       field "posts_processed" d = Some (JInt (default 20%Z max_posts)) /\
       last T (EvSleep 0)
       = EvPrint ("Post interaction for " ++ str_int (default 20%Z max_posts)
                  ++ " posts not yet implemented")).
Proof.
  destruct a as [tid cl]. cbn [Adapter.instagram_client]. intros -> Hpage.
  unfold Adapter.instagram_interact_with_posts, Adapter.interact_with_posts_block,
    Adapter._ensure_instagram_client, Client.interact_with_posts.
  destruct c as [b [p|] pw]; [|elim Hpage; reflexivity].
  destruct (truthy target_account); run; run_more; answer_acts; norm.
  all: do 2 eexists; split; [reflexivity|]; split; [reflexivity|].
  all: split; [reflexivity|].
  all: intros H; try discriminate H.
  all: eexists; repeat split.
Qed.

Lemma interact_with_posts_only_navigates_witness :
  exists res T,
    @Adapter.instagram_interact_with_posts blank_page None (Some "tech_influencer")
       busy_adapter []
    = (Ok res, busy_adapter, T) /\
    acted T = [Goto "https://www.instagram.com/tech_influencer/" None] /\
    success res = true.
Proof.
  destruct (@interact_with_posts_only_navigates blank_page busy_adapter [] ready_client
              None (Some "tech_influencer") eq_refl)
    as (res & T & E & _ & Hacted & _).
  - discriminate.
  - exists res, T. split; [exact E|]. split; [exact Hacted|].
    vm_compute in E. injection E as <- _. reflexivity.
Defined.

(** X14: [media_attached] echoes the argument, not what was done: the client
    treats the empty path as no path, so a call with the empty path makes the
    same browser calls and leaves the same trace as a call without a path, yet
    its success envelope says [media_attached] is true. In general a success
    envelope says true exactly when a path was given, also when no file input
    was found. *)
Theorem media_attached_echoes_the_argument {env : Env} (a : Adapter.t) (h : trace)
    (username message : string) (media_path : option string) :
  events (Adapter.instagram_send_direct_message username message (Some "") a h)
  = events (Adapter.instagram_send_direct_message username message None a h) /\
  (forall res,
      result (Adapter.instagram_send_direct_message username message media_path a h) = Ok res ->
      success res = true ->
      exists d,
        output res = Data d /\
        field "media_attached" d = Some (JBool (is_some media_path)) /\
        field "username" d = Some (JStr username) /\
        field "message_content" d = Some (JStr message)).
Proof.
  split.
  - unfold Adapter.instagram_send_direct_message, Adapter.send_direct_message_block.
    change (Client.send_direct_message username message (Some ""))
      with (Client.send_direct_message username message None).
    unfold try, bind.
    destruct (Adapter._ensure_instagram_client a h) as [[[[]|e] a1] h1]; [|reflexivity].
    destruct (Adapter.on_client "send_direct_message"
                (Client.send_direct_message username message None) a1 h1)
      as [[[[]|e] a2] h2]; reflexivity.
  - intros res. unfold Adapter.instagram_send_direct_message,
      Adapter.send_direct_message_block, try, bind.
    destruct (Adapter._ensure_instagram_client a h) as [[[[]|e] a1] h1].
    + destruct (Adapter.on_client "send_direct_message"
                  (Client.send_direct_message username message media_path) a1 h1)
        as [[[[]|e] a2] h2]; cbn.
      * intros E _. injection E as <-. eexists. repeat split.
      * intros E. injection E as <-. intros H. discriminate H.
    + cbn. intros E. injection E as <-. intros H. discriminate H.
Qed.

Lemma media_attached_echoes_the_argument_witness :
  exists res d,
    result (@Adapter.instagram_send_direct_message full_page "friend" "hello" (Some "")
              busy_adapter [])
    = Ok res /\
    output res = Data d /\
    field "media_attached" d = Some (JBool true) /\
    forall fi path raised,
      ~ In (EvAct (SetInputFiles fi path) raised)
           (events (@Adapter.instagram_send_direct_message full_page "friend" "hello"
                      (Some "") busy_adapter [])).
Proof.
  destruct (@media_attached_echoes_the_argument full_page busy_adapter []
              "friend" "hello" (Some "")) as (_ & Hecho).
  destruct (Hecho _ eq_refl eq_refl) as (d & Hd & Hattached & _).
  eexists. exists d. split; [reflexivity|]. split; [exact Hd|]. split; [exact Hattached|].
  intros fi path raised H. vm_compute in H. intuition discriminate.
Defined.

(** *** The length of the caption preview *)

Lemma str_len_append (s1 s2 : string) :
  str_len (s1 ++ s2) = str_len s1 + str_len s2.
Proof.
  induction s1 as [|ch s1 IH]; [reflexivity|].
  cbn [append str_len]. rewrite IH. destruct (continuation ch); reflexivity.
Qed.

(** X15: The preview of [instagram_generate_comment] has as many characters as
    the caption when the caption has at most 100, and 103 characters
    otherwise; so for a caption of 101 or 102 characters the preview is longer
    than the caption, and no preview has more than 103 characters. The
    characters are those of the Python [str], not the bytes that encode
    them. *)
Theorem caption_preview_length (a : Adapter.t) (h : trace)
    (post_caption : string) (tone : option string) :
  exists res d preview,
    result (Adapter.instagram_generate_comment post_caption tone a h) = Ok res /\
    output res = Data d /\
    field "post_caption_preview" d = Some (JStr preview) /\
    str_len preview
    = (if (str_len post_caption <=? 100)%nat then str_len post_caption else 103) /\
    (str_len preview <= 103)%nat.
Proof.
  unfold Adapter.instagram_generate_comment, Adapter.generate_comment_block, try, ret.
  do 3 eexists. split; [reflexivity|]. split; [reflexivity|]. split; [reflexivity|].
  destruct (Nat.ltb_spec 100 (str_len post_caption)) as [Hlong|Hshort].
  - rewrite str_len_append, prefix_length by lia. cbn [str_len continuation].
    destruct (Nat.leb_spec (str_len post_caption) 100); lia.
  - destruct (Nat.leb_spec (str_len post_caption) 100); lia.
Qed.

Lemma scrape_followers_reports_none_witness :
  exists res d,
    result (@Adapter.instagram_scrape_followers blank_page "brand" None
              (Adapter.new "thread-1") [])
    = Ok res /\
    output res = Data d /\
    field "followers_count" d = Some (JInt 0) /\
    field "total_available" d = Some (JStr "0/100").
Proof.
  destruct (@scrape_followers_reports_none blank_page (Adapter.new "thread-1") []
              "brand" None)
    as (T & _ & _ & _ & _ & Hres).
  destruct (Hres _ eq_refl) as (Hsuccess & _).
  destruct (Hsuccess eq_refl) as (d & Hd & Hcount & _ & Htotal).
  eexists. exists d. split; [reflexivity|]. split; [exact Hd|]. split; [exact Hcount|].
  exact Htotal.
Defined.
